(** * grunt-imageoptim: the checksum cache and the batch dispatch

    A shallow embedding of [tasks/imageoptim.js].  The task locates the
    ImageOptim-CLI binary, splits the sources of every file group into
    files and directories, and hands them to the optimizer, a child
    process.  With the [cache] option, a file whose MD5 checksum names an
    entry of the cache directory is restored from that entry instead of
    being optimized again.

    The file system, the console and the started child processes are an
    explicit [World]; a JavaScript function that has effects or throws is
    a computation in the monad [Js].  Node's [path] and [crypto] modules
    and the optimizer itself are parameters of the development. *)

From Stdlib Require Import ZArith Strings.Byte Strings.Ascii Strings.String.
From stdpp Require Import gmap strings list.
From Equations Require Import Equations.
From Equations.Prop Require Import Logic.

Local Open Scope string_scope.
Local Open Scope list_scope.

(** ** The world the task runs in *)

(** A path names a regular file with its bytes, or a directory with the
    names [fs.readdirSync] lists for it.  A path is the string the program
    passes to the file system: the file system of a world lists a file
    under every string the task uses for it, and two strings are two
    files. *)
Inductive node : Type :=
| File (content : list byte)
| Dir (entries : list string).

Abbreviation FS := (gmap string node).

(** What JavaScript throws: [new Error(message)], a [TypeError], or a
    system error of [fs] with its code ([ENOENT], [EISDIR], ...) and path. *)
Inductive exn : Type :=
| Error (message : string)
| TypeError (message : string)
| SystemError (code : string) (path : string).

(** A started child process: [child_process.spawn] with its argument
    vector and what is written to its standard input, or
    [child_process.exec] with a command line for the shell. *)
Inductive Launch : Type :=
| Spawn (command : string) (args : list string) (cwd : string) (stdin : string)
| Exec (command : string) (cwd : string).

Record World : Type := mkWorld {
  fs : FS;
  console : list string;
  children : list Launch
}.

Definition set_fs (f : FS) (w : World) : World :=
  {| fs := f; console := console w; children := children w |}.

(** ** Computations that have effects and may throw *)

Inductive completion (A : Type) : Type :=
| Normal (a : A)
| Throw (e : exn).
Arguments Normal {A} a.
Arguments Throw {A} e.

Definition Js (A : Type) : Type := World -> World * completion A.

Definition ret {A} (a : A) : Js A := fun w => (w, Normal a).

Definition throw {A} (e : exn) : Js A := fun w => (w, Throw e).

Definition bind {A B} (m : Js A) (k : A -> Js B) : Js B :=
  fun w =>
    match m w with
    | (w', Normal a) => k a w'
    | (w', Throw e) => (w', Throw e)
    end.

Declare Scope js_scope.
Delimit Scope js_scope with js.
Notation "x <- m ;; k" := (bind m (fun x => k))
  (at level 100, m at next level, right associativity) : js_scope.
Notation "m ;; k" := (bind m (fun _ => k))
  (at level 100, right associativity) : js_scope.
Local Open Scope js_scope.

(** [array.forEach(callback)] for a callback with effects: the elements
    in order; a throw ends the loop. *)
Fixpoint forEach {A} (l : list A) (callback : A -> Js unit) : Js unit :=
  match l with
  | [] => ret tt
  | x :: l' => callback x ;; forEach l' callback
  end.

(** A loop that updates local variables of the enclosing function: the
    variables are the accumulator. *)
Fixpoint forEach_acc {A S} (l : list A) (callback : S -> A -> Js S) (s : S)
  : Js S :=
  match l with
  | [] => ret s
  | x :: l' => s' <- callback s x ;; forEach_acc l' callback s'
  end.

Definition get_fs : Js FS := fun w => (w, Normal (fs w)).

Definition put_fs (f : FS) : Js unit := fun w => (set_fs f w, Normal tt).

(** [console.log(a, b, ...)]: one line, the arguments joined by spaces. *)
Definition console_log (line : string) : Js unit :=
  fun w =>
    ({| fs := fs w; console := console w ++ [line]; children := children w |},
     Normal tt).

Definition launch (l : Launch) : Js unit :=
  fun w =>
    ({| fs := fs w; console := console w; children := children w ++ [l] |},
     Normal tt).

(** ** The [fs], [fs-extra] and [grunt.file] calls the task makes *)

(** A path argument is a string or [undefined] (the value of a property
    that was never set). *)
Definition existsSync (p : option string) : Js bool :=
  f <- get_fs ;;
  match p with
  | Some p => ret (bool_decide (is_Some (f !! p)))
  | None => ret false
  end.

Definition isFile (f : FS) (p : string) : bool :=
  match f !! p with Some (File _) => true | _ => false end.

Definition isDir (f : FS) (p : string) : bool :=
  match f !! p with Some (Dir _) => true | _ => false end.

Definition exists_ (f : FS) (p : string) : bool :=
  bool_decide (is_Some (f !! p)).

(** [fse.ensureDirSync(dir)]: creates the directory when nothing is
    there, and throws when a file is in the way. *)
Definition ensureDirSync (dir : string) : Js unit :=
  f <- get_fs ;;
  match f !! dir with
  | None => put_fs (<[dir := Dir []]> f)
  | Some (Dir _) => ret tt
  | Some (File _) => throw (SystemError "EEXIST" dir)
  end.

(** [fs.readdirSync(dir)]. *)
Definition readdirSync (dir : string) : Js (list string) :=
  f <- get_fs ;;
  match f !! dir with
  | Some (Dir names) => ret names
  | Some (File _) => throw (SystemError "ENOTDIR" dir)
  | None => throw (SystemError "ENOENT" dir)
  end.

(** [fse.copySync(src, dest)] as the task uses it, from one regular file
    to a path: [dest] gets the bytes of [src], whether it existed or not.
    A path that is [undefined] is a [TypeError]; a missing source and a
    directory in the way are system errors.  Copying a directory tree is
    outside this model and reported as [ENOTSUP]. *)
Definition copySync (src dest : option string) : Js unit :=
  match src, dest with
  | None, _ | _, None => throw (TypeError "path must be a string")
  | Some src, Some d =>
      f <- get_fs ;;
      match f !! src with
      | None => throw (SystemError "ENOENT" src)
      | Some (Dir _) => throw (SystemError "ENOTSUP" src)
      | Some (File content) =>
          match f !! d with
          | Some (Dir _) => throw (SystemError "EISDIR" d)
          | _ => put_fs (<[d := File content]> f)
          end
      end
  end.

(** ** Node's [crypto] and [path] modules *)

(** [BUFFER_SIZE] of the source. *)
Definition BUFFER_SIZE : nat := Z.to_nat 8192.

Lemma BUFFER_SIZE_pos : 0 < BUFFER_SIZE.
Proof. unfold BUFFER_SIZE. lia. Qed.

(** An open file descriptor: the bytes of the file from the read position
    on. *)
Record descriptor : Type := { unread : list byte }.

(** [fs.readSync(fd, buffer, offset, length)] with no position: reads
    [length] bytes at the descriptor's position, or all that is left of a
    shorter rest, into [buffer[offset ..]], moves the position, and
    returns the number of bytes read. *)
Definition readSync (fd : descriptor) (buffer : list byte) (offset len : nat)
  : nat * list byte * descriptor :=
  let chunk := take len (unread fd) in
  let n := length chunk in
  (n,
   take offset buffer ++ chunk ++ drop (offset + n) buffer,
   {| unread := drop len (unread fd) |}).

(** [buffer.slice(start, end)]. *)
Definition slice (buffer : list byte) (start stop : nat) : list byte :=
  take (stop - start) (drop start buffer).

(** [new Buffer(size)]: [size] bytes; what they hold is not specified, here
    zeros. *)
Definition new_Buffer (size : nat) : list byte := replicate size x00.

(** A [crypto] hash object: the data it was fed, in order. *)
Record Hash : Type := { absorbed : list byte }.

Definition createHash : Hash := {| absorbed := [] |}.

Definition update (hash : Hash) (data : list byte) : Hash :=
  {| absorbed := absorbed hash ++ data |}.

(** Node's [path] module, as far as the task calls it. *)
Record PathModule : Type := {
  path_join : string -> string -> string;
  path_resolve : string -> string -> string;
  path_basename : string -> string
}.

(** The [do ... while (bytesRead === BUFFER_SIZE)] loop of [md5FileSync],
    for a buffer of [size] bytes.  A full buffer means another round; the
    loop ends with the first read that comes short, which is an empty one
    when the length of the file is a multiple of [size]. *)
Section ReadLoop.

Variable size : nat.
Hypothesis size_pos : 0 < size.

Equations? read_loop (fd : descriptor) (buffer : list byte) (hash : Hash)
  : Hash by wf (length (unread fd)) lt :=
  read_loop fd buffer hash with inspect (readSync fd buffer 0 size) := {
    | exist _ (bytesRead, buffer', fd') Hread
        with inspect (Nat.eqb bytesRead size) := {
        | exist _ true Hfull :=
            read_loop fd' buffer' (update hash (slice buffer' 0 bytesRead))
        | exist _ false _ := update hash (slice buffer' 0 bytesRead) } }.
Proof.
  apply Nat.eqb_eq in Hfull.
  rewrite length_take in Hfull. rewrite length_drop. lia.
Qed.

End ReadLoop.

(** ** Strings *)

Definition LF : ascii := "010"%char.

(** [array.join(separator)]. *)
Definition join (separator : string) (l : list string) : string :=
  String.concat separator l.

(** [s.replace(/\n+$/, '')]: the string without its trailing newlines. *)
Fixpoint chomp (s : string) : string :=
  match s with
  | EmptyString => EmptyString
  | String c s' =>
      match chomp s' with
      | EmptyString =>
          if Ascii.eqb c LF then EmptyString else String c EmptyString
      | r => String c r
      end
  end.

(** The ASCII characters [\s] matches: tab, line feed, vertical tab, form
    feed, carriage return and space.  (The others are not ASCII.) *)
Definition is_space (c : ascii) : bool :=
  let n := nat_of_ascii c in
  ((9 <=? n)%nat && (n <=? 13)%nat) || (n =? 32)%nat.

(** [s.replace(/\s/g, '\\ ')]: every whitespace character becomes a
    backslash and a space. *)
Fixpoint escape_spaces (s : string) : string :=
  match s with
  | EmptyString => EmptyString
  | String c s' =>
      if is_space c then String "\" (String " " (escape_spaces s'))
      else String c (escape_spaces s')
  end.

(** What the strings above are to be: predicates for the statements
    about [chomp], [escape_spaces] and the standard input of the child. *)

(** The text ends with a line feed. *)
Definition ends_with_LF (s : string) : bool :=
  match rev (list_ascii_of_string s) with
  | c :: _ => Ascii.eqb c LF
  | [] => false
  end.

(** [n] line feeds. *)
Fixpoint newlines (n : nat) : string :=
  match n with
  | O => EmptyString
  | S n' => String LF (newlines n')
  end.

(** A text in which no whitespace stands bare: every whitespace character
    is a space that comes right after a backslash. *)
Fixpoint escaped_from (after_backslash : bool) (s : string) : bool :=
  match s with
  | EmptyString => true
  | String c s' =>
      if is_space c then
        Ascii.eqb c " " && after_backslash && escaped_from false s'
      else escaped_from (Ascii.eqb c "\") s'
  end.

(** The number of whitespace characters of a text. *)
Fixpoint count_spaces (s : string) : nat :=
  match s with
  | EmptyString => 0
  | String c s' => (if is_space c then 1 else 0) + count_spaces s'
  end.

(** The text has a line feed in it. *)
Definition has_LF (s : string) : bool :=
  existsb (fun c => Ascii.eqb c LF) (list_ascii_of_string s).

(** ** Options, promises *)

(** The options of a task after [task.options] filled in the defaults. *)
Record TaskOptions : Type := {
  t_jpegMini : bool;
  t_imageAlpha : bool;
  t_quitAfter : bool;
  t_cache : option string
}.

(** The object [processBatch] hands to a processor. *)
Record Options : Type := {
  cliPath : string;
  jpegMini : bool;
  imageAlpha : bool;
  quitAfter : bool;
  cache : option string
}.

(** [if (opts.cache)]: [null] and the empty string are falsy. *)
Definition cache_dir_of (opts : Options) : option string :=
  match cache opts with
  | Some EmptyString => None
  | Some dir => Some dir
  | None => None
  end.

(** How a deferred ends: resolved, rejected with an error, or never
    settled because the handler that should settle it threw, which leaves
    an uncaught exception. *)
Inductive settled : Type :=
| Fulfilled
| Rejected (reason : exn)
| Uncaught (e : exn).

(** A promise is what happens from now on until it settles. *)
Definition Promise : Type := World -> World * settled.

(** [q()]. *)
Definition q : Promise := fun w => (w, Fulfilled).

(** [promise.then(callback)]: the callback runs once [promise] is
    fulfilled, and what it throws rejects the new promise; a rejection
    passes through. *)
Definition then_ (promise : Promise) (callback : unit -> Js settled)
  : Promise :=
  fun w =>
    match promise w with
    | (w', Fulfilled) =>
        match callback tt w' with
        | (w'', Normal s) => (w'', s)
        | (w'', Throw e) => (w'', Rejected e)
        end
    | (w', s) => (w', s)
    end.

(** An event handler: what it throws is nobody's to catch. *)
Definition handler (h : Js settled) : Js settled :=
  fun w =>
    match h w with
    | (w', Normal s) => (w', Normal s)
    | (w', Throw e) => (w', Normal (Uncaught e))
    end.

Inductive fileType : Type := file_type | dir_type.

(** The sources of one file group of the task: [file.src]. *)
Record FileGroup : Type := { src : list string }.

Definition errorMessage : string :=
  "ImageOptim-CLI exited with a failure status".

Definition issuesPage : string :=
  "https://github.com/JamieMason/grunt-imageoptim/issues/new".

(** [getCliFlags]. *)
Definition getCliFlags (opts : Options) : list string :=
  (if quitAfter opts then ["--quit"] else []) ++
  (if imageAlpha opts then ["--image-alpha"] else []) ++
  (if jpegMini opts then ["--jpeg-mini"] else []).

(** [getCommandByDirectory]. *)
Definition getCommandByDirectory (directory : string) (options : Options)
  : string :=
  let command := "./imageOptim" in
  let command := command +:+ (if quitAfter options then " --quit" else "") in
  let command :=
    command +:+ (if imageAlpha options then " --image-alpha" else "") in
  let command := command +:+ (if jpegMini options then " --jpeg-mini" else "") in
  command +:+ " --directory " +:+ escape_spaces directory.

(** ** The task *)

Section Task.

(** [crypto]'s MD5 as a function from the hashed bytes to the digest in
    hexadecimal. *)
Variable md5 : list byte -> string.

Variable path : PathModule.

(** The optimizer, ImageOptim-CLI: started as [l] on a file system, it
    leaves a file system, writes chunks to its standard output, and
    exits with a code ([None] when a signal ended it: the code is
    [null]). *)
Variable optimizer : Launch -> FS -> FS * list string * option Z.

(** [__dirname], and [gruntFile], the working directory. *)
Variable dirname : string.
Variable gruntFile : string.

(** [hash.digest('hex')]. *)
Definition digest (hash : Hash) : string := md5 (absorbed hash).

(** [md5FileSync]: [fs.openSync] throws when nothing is at [filename],
    [fs.readSync] when a directory is; [finally] closes the descriptor
    either way. *)
Definition md5FileSync (filename : string) : Js string :=
  f <- get_fs ;;
  match f !! filename with
  | None => throw (SystemError "ENOENT" filename)
  | Some (Dir _) => throw (SystemError "EISDIR" filename)
  | Some (File content) =>
      let fd := {| unread := content |} in
      let hash := createHash in
      let buffer := new_Buffer BUFFER_SIZE in
      let hash := read_loop BUFFER_SIZE BUFFER_SIZE_pos fd buffer hash in
      ret (digest hash)
  end.

(** The child process runs to its end: every chunk of its standard
    output is logged without its trailing newlines, then it exits. *)
Definition child_runs (l : Launch) : Js (option Z) :=
  fun w =>
    let '(f', out, code) := optimizer l (fs w) in
    ({| fs := f'; console := console w ++ map chomp out;
        children := children w |},
     Normal code).

(** [executeDirectoryCommand]. *)
Definition executeDirectoryCommand (command cwd : string) : Js settled :=
  let imageOptimCli := Exec command cwd in
  launch imageOptimCli ;;
  code <- child_runs imageOptimCli ;;
  handler
    (match code with
     | Some 0%Z => ret Fulfilled
     | _ => ret (Rejected (Error errorMessage))
     end).

(** The body of [old_files.forEach] in [processFiles]; [files] and
    [in_cache_path] are the variables of [processFiles] it updates.  The
    object [in_cache_path] is a map from paths: the files are absolute
    paths, none of them the name of a property every object has. *)
Definition cache_step (cache_dir : string)
    (vars : list string * gmap string string) (file : string)
  : Js (list string * gmap string string) :=
  let '(files, in_cache_path) := vars in
  md5 <- md5FileSync file ;;
  let in_cache_path := <[file := path_join path cache_dir md5]> in_cache_path in
  found <- existsSync (in_cache_path !! file) ;;
  if found : bool then
    console_log ("From cache file " +:+ path_basename path file) ;;
    copySync (in_cache_path !! file) (Some file) ;;
    ret (files, in_cache_path)
  else
    ret (files ++ [file], in_cache_path).

(** The body of [files.forEach] in the ['exit'] handler of
    [processFiles]; [in_cache_path[file]] is [undefined] when the
    property was never set. *)
Definition add_to_cache (in_cache_path : gmap string string) (file : string)
  : Js unit :=
  console_log ("Add to cache " +:+ path_basename path file) ;;
  copySync (Some file) (in_cache_path !! file).

(** The ['exit'] handler of [processFiles]. *)
Definition on_exit (files : list string) (in_cache_path : gmap string string)
    (code : option Z) : Js settled :=
  match code with
  | Some 0%Z =>
      console_log "ImageOptim done!" ;;
      forEach files (add_to_cache in_cache_path) ;;
      ret Fulfilled
  | _ => ret (Rejected (Error errorMessage))
  end.

(** [processFiles] from [spawn] on. *)
Definition spawn_optimizer (files : list string)
    (in_cache_path : gmap string string) (opts : Options) : Js settled :=
  let imageOptimCli :=
    Spawn "./imageOptim" (getCliFlags opts) (cliPath opts)
          (join (String LF "") files +:+ String LF "") in
  launch imageOptimCli ;;
  code <- child_runs imageOptimCli ;;
  handler (on_exit files in_cache_path code).

(** The cache layer of [processFiles], from [var in_cache_path = {}] to
    the end of [old_files.forEach]: the values of [files] and
    [in_cache_path] it leaves. *)
Definition reduce_work_list (files : list string) (opts : Options)
  : Js (list string * gmap string string) :=
  let in_cache_path : gmap string string := ∅ in
  match cache_dir_of opts with
  | Some cache_dir =>
      ensureDirSync cache_dir ;;
      let old_files := files in
      forEach_acc old_files (cache_step cache_dir) ([], in_cache_path)
  | None => ret (files, in_cache_path)
  end.

(** [processFiles]. *)
Definition processFiles (files : list string) (opts : Options) : Js settled :=
  vars <- reduce_work_list files opts ;;
  let '(files, in_cache_path) := vars in
  match cache_dir_of opts, files with
  | Some _, [] => ret Fulfilled
  | _, _ => spawn_optimizer files in_cache_path opts
  end.

(** [processDirectories]. *)
Definition getDirFiles (dir : string) : Js (list string) :=
  list <- readdirSync dir ;;
  ret (map (fun f => path_join path dir f) list).

Definition processDirectories (files : list string) (opts : Options)
  : Js settled :=
  new_files <-
    forEach_acc files
      (fun new_files dir => l <- getDirFiles dir ;; ret (new_files ++ l)) [] ;;
  processFiles new_files opts.

(** [isFileType(fileType)]: [grunt.file.isFile] or [grunt.file.isDir],
    the method named ['is' + firstUp(fileType)]. *)
Definition isFileType (t : fileType) (f : FS) (file : string) : bool :=
  match t with
  | file_type => isFile f file
  | dir_type => isDir f file
  end.

Definition cliPaths : list string :=
  map (fun dir => path_resolve path dirname dir)
      ["../node_modules/imageoptim-cli/bin"; "../../imageoptim-cli/bin"].

(** [getPathToCli]: the first candidate that exists, or [undefined]. *)
Definition getPathToCli (f : FS) : option string :=
  head (filter (fun cliPath => exists_ f cliPath = true) cliPaths).

Definition toAbsolute (relativePath : string) : string :=
  path_resolve path gruntFile relativePath.

(** [processBatch].  The sources are filtered when the chain is built,
    on the file system [f] of that moment; the processor runs when the
    chain gets there. *)
Definition processBatch (t : fileType) (cliPath : string)
    (options : TaskOptions) (taskFiles : list string) (promise : Promise)
    (f : FS) : Promise :=
  let files := map toAbsolute (filter (fun p => isFileType t f p = true) taskFiles) in
  let processor :=
    match t with dir_type => processDirectories | file_type => processFiles end in
  match files with
  | [] => promise
  | _ =>
      then_ promise (fun _ =>
        processor files
          {| cliPath := cliPath;
             jpegMini := t_jpegMini options;
             imageAlpha := t_imageAlpha options;
             quitAfter := t_quitAfter options;
             cache := t_cache options |})
  end.

(** The callback of [grunt.registerMultiTask]: [task_files] is
    [task.files].  [!cliPath] holds for [undefined] and for the empty
    string. *)
Definition imageoptim (task_files : list FileGroup) (options : TaskOptions)
  : Js settled :=
  f <- get_fs ;;
  let promise := q in
  match getPathToCli f with
  | None | Some EmptyString =>
      throw (Error ("Unable to locate ImageOptim-CLI. Please raise issue at "
                    +:+ issuesPage))
  | Some cliPath =>
      let promise :=
        fold_left
          (fun promise file =>
             let promise :=
               processBatch file_type cliPath options (src file) promise f in
             processBatch dir_type cliPath options (src file) promise f)
          task_files promise in
      fun w => let '(w', s) := promise w in (w', Normal s)
  end.

(** *** The cache layer and the batches, said in one piece *)

(** The digest of the whole content, given to the hash in one piece. *)
Definition md5_one_pass (content : list byte) : string :=
  digest (update createHash content).

(** The cache entry of a candidate: the path in the cache directory that
    the checksum of its content names.  Nothing for what is not a regular
    file. *)
Definition entry_of (f : FS) (cache_dir file : string) : option string :=
  match f !! file with
  | Some (File content) => Some (path_join path cache_dir (md5 content))
  | _ => None
  end.

(** A candidate is known to the cache when its cache entry exists. *)
Definition in_cache (f : FS) (cache_dir file : string) : bool :=
  match entry_of f cache_dir file with
  | Some entry => bool_decide (is_Some (f !! entry))
  | None => false
  end.

(** The reduced work list: the candidates the cache does not know, in
    their order. *)
Definition cache_misses (f : FS) (cache_dir : string) (files : list string)
  : list string :=
  filter (fun file => in_cache f cache_dir file = false) files.

(** [in_cache_path] after the cache layer: every candidate with its cache
    entry. *)
Definition remember (f : FS) (cache_dir : string)
    (in_cache_path : gmap string string) (file : string) : gmap string string :=
  match entry_of f cache_dir file with
  | Some entry => <[file := entry]> in_cache_path
  | None => in_cache_path
  end.

Definition in_cache_paths (f : FS) (cache_dir : string) (files : list string)
  : gmap string string :=
  foldl (remember f cache_dir) ∅ files.

(** The file system after the cache layer: the cache directory is there,
    and every candidate the cache of [f] knows holds the bytes of its
    entry. *)
Definition ensured (f : FS) (cache_dir : string) : FS :=
  match f !! cache_dir with
  | None => <[cache_dir := Dir []]> f
  | Some _ => f
  end.

Definition restore (f : FS) (cache_dir : string) (into : FS) (file : string)
  : FS :=
  match entry_of f cache_dir file with
  | Some entry =>
      match f !! entry with
      | Some (File cached) => <[file := File cached]> into
      | _ => into
      end
  | None => into
  end.

Definition after_cache_layer (w : World) (cache_dir : string)
    (files : list string) : World :=
  {| fs := foldl (restore (fs w) cache_dir) (ensured (fs w) cache_dir) files;
     console :=
       console w
       ++ map (fun file => "From cache file " +:+ path_basename path file)
            (filter (fun file => in_cache (fs w) cache_dir file = true) files);
     children := children w |}.


(** Candidates and cache that are apart: no candidate is listed twice,
    every candidate is a regular file, its cache entry is not one of the
    candidates, not the cache directory itself and not a directory, and
    no file stands where the cache directory goes. *)
Definition apart (f : FS) (cache_dir : string) (files : list string) : bool :=
  bool_decide (NoDup files)
  && negb (isFile f cache_dir)
  && forallb
       (fun file =>
          match entry_of f cache_dir file with
          | Some entry =>
              bool_decide (entry ∉ files)
              && bool_decide (entry ≠ cache_dir)
              && negb (isDir f entry)
          | None => false
          end)
       files.


(** All the cache layer may have done to the path [p] between the file
    system [f] a call starts in and the file system [f1] the child is
    started in: left it as it was, given a candidate that was a regular
    file other bytes, or made the cache directory where nothing was. *)
Definition cache_layer_wrote (files : list string) (cache_dir : option string)
    (f f1 : FS) (p : string) : Prop :=
  f1 !! p = f !! p
  \/ (p ∈ files
      /\ exists content restored : list byte,
           f !! p = Some (File content) /\ f1 !! p = Some (File restored))
  \/ (cache_dir = Some p /\ f !! p = None /\ f1 !! p = Some (Dir [])).

(** The files of a batch of directories: for every directory, in order,
    the names it lists, each joined to the directory. *)
Definition expand (f : FS) (dirs : list string) : list string :=
  concat
    (map
       (fun dir =>
          match f !! dir with
          | Some (Dir names) => map (fun name => path_join path dir name) names
          | _ => []
          end)
       dirs).

(** The child [processFiles] starts for a work list. *)
Definition optimizer_child (files : list string) (opts : Options) : Launch :=
  Spawn "./imageOptim" (getCliFlags opts) (cliPath opts)
        (join (String LF "") files +:+ String LF "").

(** The children a computation adds: at most [n], each of them started
    with [spawn] in [cwd] with the flags of [opts]. *)
Definition spawns_at_most (n : nat) (opts : Options) (before after : World)
  : Prop :=
  exists extra : list Launch,
    children after = children before ++ extra
    /\ Forall
         (fun l => exists stdin,
            l = Spawn "./imageOptim" (getCliFlags opts) (cliPath opts) stdin)
         extra
    /\ length extra <= n.

(** The directory variant was used for [directory]: a shell ran the
    command of [getCommandByDirectory] for it. *)
Definition directory_variant_used (directory : string) (opts : Options)
    (launched : list Launch) : bool :=
  existsb
    (fun l =>
       match l with
       | Exec command _ => String.eqb command (getCommandByDirectory directory opts)
       | Spawn _ _ _ _ => false
       end)
    launched.

End Task.

(** ** Instances of the parameters *)

(** MD5 as RFC 1321 defines it, which is what [crypto.createHash('md5')]
    computes: the value the theorems are run on. *)
Module MD5.

Local Open Scope Z_scope.

Definition wrap (x : Z) : Z := x mod 2 ^ 32.

Definition rotl (x : Z) (c : Z) : Z :=
  wrap (Z.lor (Z.shiftl x c) (Z.shiftr x (32 - c))).

Definition not32 (x : Z) : Z := Z.lxor x 0xffffffff.

Definition shifts : list Z :=
  [7; 12; 17; 22; 7; 12; 17; 22; 7; 12; 17; 22; 7; 12; 17; 22;
   5; 9; 14; 20; 5; 9; 14; 20; 5; 9; 14; 20; 5; 9; 14; 20;
   4; 11; 16; 23; 4; 11; 16; 23; 4; 11; 16; 23; 4; 11; 16; 23;
   6; 10; 15; 21; 6; 10; 15; 21; 6; 10; 15; 21; 6; 10; 15; 21].

Definition sines : list Z :=
  [0xd76aa478; 0xe8c7b756; 0x242070db; 0xc1bdceee;
   0xf57c0faf; 0x4787c62a; 0xa8304613; 0xfd469501;
   0x698098d8; 0x8b44f7af; 0xffff5bb1; 0x895cd7be;
   0x6b901122; 0xfd987193; 0xa679438e; 0x49b40821;
   0xf61e2562; 0xc040b340; 0x265e5a51; 0xe9b6c7aa;
   0xd62f105d; 0x02441453; 0xd8a1e681; 0xe7d3fbc8;
   0x21e1cde6; 0xc33707d6; 0xf4d50d87; 0x455a14ed;
   0xa9e3e905; 0xfcefa3f8; 0x676f02d9; 0x8d2a4c8a;
   0xfffa3942; 0x8771f681; 0x6d9d6122; 0xfde5380c;
   0xa4beea44; 0x4bdecfa9; 0xf6bb4b60; 0xbebfbc70;
   0x289b7ec6; 0xeaa127fa; 0xd4ef3085; 0x04881d05;
   0xd9d4d039; 0xe6db99e5; 0x1fa27cf8; 0xc4ac5665;
   0xf4292244; 0x432aff97; 0xab9423a7; 0xfc93a039;
   0x655b59c3; 0x8f0ccc92; 0xffeff47d; 0x85845dd1;
   0x6fa87e4f; 0xfe2ce6e0; 0xa3014314; 0x4e0811a1;
   0xf7537e82; 0xbd3af235; 0x2ad7d2bb; 0xeb86d391].

Definition byte_to_Z (b : byte) : Z := Z.of_N (Byte.to_N b).

Definition byte_of_Z (z : Z) : byte :=
  match Byte.of_N (Z.to_N (z mod 256)) with
  | Some b => b
  | None => x00
  end.

(** [n] bytes of [z], the least significant first. *)
Fixpoint le_bytes (n : nat) (z : Z) : list byte :=
  match n with
  | O => []
  | S n' => byte_of_Z z :: le_bytes n' (Z.shiftr z 8)
  end.

Fixpoint le_word (bs : list byte) : Z :=
  match bs with
  | [] => 0
  | b :: bs' => byte_to_Z b + 256 * le_word bs'
  end.

(** The message followed by a one bit, zeros up to 56 modulo 64 bytes,
    and its length in bits on 8 bytes. *)
Definition pad (msg : list byte) : list byte :=
  let len := Z.of_nat (length msg) in
  let zeros := Z.to_nat ((55 - len) mod 64) in
  msg ++ x80 :: replicate zeros x00 ++ le_bytes 8 (8 * len).

(** Consecutive groups of [n] elements; [fuel] bounds their number. *)
Fixpoint chunks {A} (fuel n : nat) (l : list A) : list (list A) :=
  match fuel, l with
  | O, _ | _, [] => []
  | S fuel', _ => take n l :: chunks fuel' n (drop n l)
  end.

Definition words (block : list byte) : list Z :=
  map le_word (chunks 16 4 block).

Definition round (m : list Z) (st : Z * Z * Z * Z) (i : nat)
  : Z * Z * Z * Z :=
  let '(a, b, c, d) := st in
  let iz := Z.of_nat i in
  let '(f, g) :=
    if iz <? 16 then (Z.lor (Z.land b c) (Z.land (not32 b) d), iz)
    else if iz <? 32 then
      (Z.lor (Z.land d b) (Z.land (not32 d) c), (5 * iz + 1) mod 16)
    else if iz <? 48 then (Z.lxor b (Z.lxor c d), (3 * iz + 5) mod 16)
    else (Z.lxor c (Z.lor b (not32 d)), (7 * iz) mod 16) in
  let f := wrap (f + a + nth i sines 0 + nth (Z.to_nat g) m 0) in
  (d, wrap (b + rotl f (nth i shifts 0)), b, c).

Definition compress (st : Z * Z * Z * Z) (block : list byte)
  : Z * Z * Z * Z :=
  let '(a0, b0, c0, d0) := st in
  let '(a, b, c, d) := fold_left (round (words block)) (seq 0 64) st in
  (wrap (a0 + a), wrap (b0 + b), wrap (c0 + c), wrap (d0 + d)).

Definition initial : Z * Z * Z * Z :=
  (0x67452301, 0xefcdab89, 0x98badcfe, 0x10325476).

Definition hash (msg : list byte) : list byte :=
  let padded := pad msg in
  let '(a, b, c, d) :=
    fold_left compress (chunks (length padded) 64 padded) initial in
  le_bytes 4 a ++ le_bytes 4 b ++ le_bytes 4 c ++ le_bytes 4 d.

Definition hex_digit (z : Z) : ascii :=
  nth (Z.to_nat z) (list_ascii_of_string "0123456789abcdef") "0"%char.

Fixpoint hex (bs : list byte) : string :=
  match bs with
  | [] => EmptyString
  | b :: bs' =>
      String (hex_digit (byte_to_Z b / 16))
        (String (hex_digit (byte_to_Z b mod 16)) (hex bs'))
  end.

Definition hexdigest (msg : list byte) : string := hex (hash msg).

End MD5.

(** The bytes of an ASCII text. *)
Definition bytes_of (s : string) : list byte := list_byte_of_string s.

(** A [path] module for POSIX paths: [join] and [resolve] normalise what
    they return: no empty segment, no [.], and [..] takes the segment
    before it away. *)
Definition is_absolute (p : string) : bool :=
  match p with
  | String "/" _ => true
  | _ => false
  end.

(** The segments of a path: what stands between its separators. *)
Fixpoint segments_from (segment p : string) : list string :=
  match p with
  | EmptyString => [segment]
  | String "/" p' => segment :: segments_from EmptyString p'
  | String c p' => segments_from (segment +:+ String c EmptyString) p'
  end.

(** The segments read so far, the last one first, and the next one. *)
Definition normal_step (absolute : bool) (seen : list string) (segment : string)
  : list string :=
  if String.eqb segment "" || String.eqb segment "." then seen
  else if String.eqb segment ".." then
    match seen with
    | [] => if absolute then [] else [".."]
    | ".." :: _ => ".." :: seen
    | _ :: seen' => seen'
    end
  else segment :: seen.

Definition normalize (p : string) : string :=
  let absolute := is_absolute p in
  let kept :=
    rev (fold_left (normal_step absolute) (segments_from EmptyString p) []) in
  match absolute, kept with
  | true, _ => "/" +:+ String.concat "/" kept
  | false, [] => "."
  | false, _ => String.concat "/" kept
  end.

Definition posix_basename (p : string) : string :=
  match fold_left (normal_step true) (segments_from EmptyString p) [] with
  | name :: _ => name
  | [] => EmptyString
  end.

Definition posix : PathModule := {|
  path_join :=
    fun a b => if String.eqb a "" then normalize b else normalize (a +:+ "/" +:+ b);
  path_resolve :=
    fun from to =>
      if is_absolute to then normalize to else normalize (from +:+ "/" +:+ to);
  path_basename := posix_basename
|}.

(** ** A project to run the task on *)

(** The lines of a text, each ended by a line feed. *)
Fixpoint lines_from (line s : string) : list string :=
  match s with
  | EmptyString => []
  | String c s' =>
      if Ascii.eqb c LF then line :: lines_from EmptyString s'
      else lines_from (line +:+ String c EmptyString) s'
  end.

(** An optimizer that drops the first four bytes of every file its
    standard input names, says so, and exits with 0. *)
Definition shrink (content : list byte) : list byte := drop 4 content.

Definition shrink_all (stdin : string) (f : FS) : FS :=
  foldr
    (fun p f =>
       match f !! p with
       | Some (File content) => <[p := File (shrink content)]> f
       | _ => f
       end)
    f (lines_from EmptyString stdin).

Definition shrinking_cli (l : Launch) (f : FS) : FS * list string * option Z :=
  match l with
  | Spawn _ _ _ stdin =>
      (shrink_all stdin f,
       ["Finished" +:+ String LF (String LF EmptyString)], Some 0%Z)
  | Exec _ _ => (f, [], Some 0%Z)
  end.

(** An optimizer that removes every file its standard input names and
    exits with 0. *)
Definition removing_cli (l : Launch) (f : FS) : FS * list string * option Z :=
  match l with
  | Spawn _ _ _ stdin =>
      (foldr (fun p f => delete p f) f (lines_from EmptyString stdin), [], Some 0%Z)
  | Exec _ _ => (f, [], Some 0%Z)
  end.

(** An optimizer that touches nothing and exits with 1. *)
Definition failing_cli (l : Launch) (f : FS) : FS * list string * option Z :=
  (f, ["ImageOptim.app is not installed" +:+ String LF EmptyString], Some 1%Z).

Definition a_png : string := "/project/images/a.png".
Definition b_png : string := "/project/images/b.png".
Definition cli_bin : string := "/plugin/node_modules/imageoptim-cli/bin".

(** The entry of the cache for the content of [b.png]. *)
Definition b_entry : string :=
  path_join posix ".cache" (MD5.hexdigest (bytes_of "raw:B")).

(** [images/] holds [a.png], which the cache does not know, and [b.png],
    which it does. *)
Definition project_fs : FS :=
  list_to_map
    [("images", Dir ["a.png"; "b.png"]);
     ("/project/images", Dir ["a.png"; "b.png"]);
     (a_png, File (bytes_of "raw:A"));
     (b_png, File (bytes_of "raw:B"));
     (".cache", Dir [MD5.hexdigest (bytes_of "raw:B")]);
     (b_entry, File (bytes_of "B"));
     (cli_bin, Dir ["imageOptim"])].

Definition project : World :=
  {| fs := project_fs; console := []; children := [] |}.

(** The project with a directory [old] in [images/], listed before the
    two files. *)
Definition nested : World :=
  {| fs :=
       <["/project/images" := Dir ["old"; "a.png"; "b.png"]]>
         (<["/project/images/old" := Dir ["c.png"]]> project_fs);
     console := []; children := [] |}.

(** A file that fills the buffer of [md5FileSync] once, to the byte. *)
Definition one_buffer : World :=
  {| fs := {[ "/full.png" := File (replicate BUFFER_SIZE x2a) ]};
     console := []; children := [] |}.

(** A plugin that was installed without ImageOptim-CLI. *)
Definition bare : World := {| fs := ∅; console := []; children := [] |}.

Definition with_cache : Options :=
  {| cliPath := cli_bin; jpegMini := false; imageAlpha := false;
     quitAfter := true; cache := Some ".cache" |}.

Definition without_cache : Options :=
  {| cliPath := cli_bin; jpegMini := false; imageAlpha := false;
     quitAfter := true; cache := None |}.

Definition task_with_cache : TaskOptions :=
  {| t_jpegMini := false; t_imageAlpha := false; t_quitAfter := true;
     t_cache := Some ".cache" |}.

Definition task_without_cache : TaskOptions :=
  {| t_jpegMini := false; t_imageAlpha := false; t_quitAfter := true;
     t_cache := None |}.

(** ** The parameters and the strings, on examples *)

Example posix_join :
  path_join posix "./.cache" "abc" = ".cache/abc"
  /\ path_join posix "/project/images/" "a.png" = "/project/images/a.png"
  /\ path_join posix "" "" = "."
  /\ path_join posix ".." "../a" = "../../a".
Proof. repeat split; reflexivity. Qed.

Example posix_resolve :
  path_resolve posix "/plugin/tasks" "../node_modules/imageoptim-cli/bin"
  = "/plugin/node_modules/imageoptim-cli/bin"
  /\ path_resolve posix "/plugin/tasks" "../../imageoptim-cli/bin"
     = "/imageoptim-cli/bin"
  /\ path_resolve posix "/project" "images" = "/project/images"
  /\ path_resolve posix "/project" "/tmp/x.png" = "/tmp/x.png".
Proof. repeat split; reflexivity. Qed.

Example posix_basename_of :
  path_basename posix "/project/images/a.png" = "a.png"
  /\ path_basename posix "/project/images/" = "images".
Proof. repeat split; reflexivity. Qed.

Example chomp_trailing :
  chomp ("a" +:+ String LF ("b" +:+ String LF (String LF ""))) = "a" +:+ String LF "b"
  /\ chomp (String LF (String LF "")) = ""
  /\ chomp "" = "".
Proof. repeat split; reflexivity. Qed.

Example command_for_directory :
  getCommandByDirectory "/my project/new images"
    {| cliPath := "/bin"; jpegMini := true; imageAlpha := false;
       quitAfter := true; cache := None |}
  = "./imageOptim --quit --jpeg-mini --directory /my\ project/new\ images".
Proof. reflexivity. Qed.

Example flags_in_order :
  getCliFlags
    {| cliPath := "/bin"; jpegMini := true; imageAlpha := true;
       quitAfter := true; cache := None |}
  = ["--quit"; "--image-alpha"; "--jpeg-mini"].
Proof. reflexivity. Qed.

Example empty_cache_option_is_off :
  cache_dir_of
    {| cliPath := "/bin"; jpegMini := false; imageAlpha := false;
       quitAfter := false; cache := Some "" |}
  = None.
Proof. reflexivity. Qed.

Example md5_empty : MD5.hexdigest [] = "d41d8cd98f00b204e9800998ecf8427e".
Proof. vm_compute. reflexivity. Qed.

Example md5_abc :
  MD5.hexdigest (bytes_of "abc") = "900150983cd24fb0d6963f7d28e17f72".
Proof. vm_compute. reflexivity. Qed.

Example md5_two_blocks :
  MD5.hexdigest
    (bytes_of
       "12345678901234567890123456789012345678901234567890123456789012345678901234567890")
  = "57edf4a22be3c955ac49da2e2107b67a".
Proof. vm_compute. reflexivity. Qed.

Section ReadLoopFacts.

Variable size : nat.
Hypothesis size_pos : 0 < size.

(** What [readSync] put into the buffer is what [slice] takes out of it,
    whatever the buffer held before. *)
Lemma slice_written (buffer chunk : list byte) :
  slice (take 0 buffer ++ chunk ++ drop (0 + length chunk) buffer) 0 (length chunk)
  = chunk.
Proof.
  unfold slice. rewrite Nat.sub_0_r, drop_0. simpl. apply take_app_length.
Qed.

(** The loop feeds the hash every byte of the file, in order, once. *)
Lemma read_loop_absorbed fd buffer hash :
  absorbed (read_loop size size_pos fd buffer hash) = absorbed hash ++ unread fd.
Proof.
  funelim (read_loop size size_pos fd buffer hash).
  - match goal with IH : absorbed (read_loop _ _ _ _ _) = _ ++ _ |- _ => rewrite IH end.
    rewrite slice_written. simpl.
    rewrite <- app_assoc, take_drop. done.
  - rewrite slice_written. simpl.
    match goal with H : Nat.eqb _ _ = false |- _ =>
      pose proof (proj1 (Nat.eqb_neq _ _) H) as Hshort end.
    rewrite length_take in Hshort.
    rewrite take_ge by lia. done.
Qed.

End ReadLoopFacts.

(** ** The task's functions, one by one *)

Section TaskFacts.

Variable md5 : list byte -> string.
Variable path : PathModule.
Variable optimizer : Launch -> FS -> FS * list string * option Z.
Variable dirname : string.
Variable gruntFile : string.

Arguments copySync : simpl never.
Arguments existsSync : simpl never.
Arguments ensureDirSync : simpl never.
Arguments readdirSync : simpl never.
Arguments md5FileSync : simpl never.
Arguments cache_step : simpl never.
Arguments forEach_acc : simpl never.
Arguments forEach : simpl never.

Ltac run :=
  unfold bind, ret, throw, get_fs, put_fs, console_log, launch, set_fs; simpl.

(** On a regular file [md5FileSync] returns the digest of all the bytes
    of the file and changes nothing. *)
Lemma md5FileSync_file (w : World) (filename : string) (content : list byte) :
  fs w !! filename = Some (File content) ->
  md5FileSync md5 filename w = (w, Normal (md5 content)).
Proof.
  intros Hfile. unfold md5FileSync. run. rewrite Hfile.
  unfold digest. rewrite read_loop_absorbed. done.
Qed.

(** C6. The checksum [md5FileSync] returns for a regular file, read in
    chunks of [BUFFER_SIZE] bytes until a read comes short, is the MD5
    digest of the whole content of the file taken in one pass, whatever
    the length of the file; the file system is left as it was. *)
Theorem md5FileSync_is_md5_of_content (w : World) (filename : string)
    (content : list byte) :
  fs w !! filename = Some (File content) ->
  md5FileSync md5 filename w = (w, Normal (md5_one_pass md5 content)).
Proof.
  intros Hfile. unfold md5FileSync. run. rewrite Hfile.
  unfold md5_one_pass, digest, update, createHash.
  rewrite read_loop_absorbed. done.
Qed.

(** A file of exactly [BUFFER_SIZE] bytes: the first read fills the buffer,
    the second one is empty and ends the loop. *)
Example read_loop_exact_multiple :
  absorbed
    (read_loop BUFFER_SIZE BUFFER_SIZE_pos
       {| unread := replicate BUFFER_SIZE x2a |} (new_Buffer BUFFER_SIZE) createHash)
  = replicate BUFFER_SIZE x2a.
Proof. vm_compute. reflexivity. Qed.

(** What is not a regular file has no checksum. *)
Lemma md5FileSync_throws (w : World) (filename : string) :
  isFile (fs w) filename = false ->
  exists e, md5FileSync md5 filename w = (w, Throw e).
Proof.
  unfold isFile, md5FileSync. run.
  destruct (fs w !! filename) as [[content|names]|]; [done | eauto | eauto].
Qed.

(** *** Who starts a child *)

Lemma forEach_children {A} (l : list A) (callback : A -> Js unit) :
  (forall x w, children (callback x w).1 = children w) ->
  forall w, children (forEach l callback w).1 = children w.
Proof.
  intros Hcb. induction l as [|x l IH]; intros w; [done|].
  unfold forEach; fold (@forEach A). unfold bind. specialize (Hcb x w).
  destruct (callback x w) as [w' [[]|e]]; simpl in *; [|done].
  rewrite IH. done.
Qed.

Lemma forEach_acc_children {A S} (l : list A) (callback : S -> A -> Js S) :
  (forall s x w, children (callback s x w).1 = children w) ->
  forall s w, children (forEach_acc l callback s w).1 = children w.
Proof.
  intros Hcb. induction l as [|x l IH]; intros s w; [done|].
  unfold forEach_acc; fold (@forEach_acc A S). unfold bind. specialize (Hcb s x w).
  destruct (callback s x w) as [w' [s'|e]]; simpl in *; [|done].
  rewrite IH. done.
Qed.

Lemma copySync_children (src dest : option string) (w : World) :
  children (copySync src dest w).1 = children w.
Proof.
  unfold copySync. destruct src as [src|], dest as [dest|]; try done.
  run. destruct (fs w !! src) as [[content|names]|]; try done.
  destruct (fs w !! dest) as [[content'|names']|]; done.
Qed.

Lemma md5FileSync_world (filename : string) (w : World) :
  (md5FileSync md5 filename w).1 = w.
Proof.
  unfold md5FileSync. run.
  destruct (fs w !! filename) as [[content|names]|]; done.
Qed.

Lemma cache_step_children (cache_dir : string)
    (vars : list string * gmap string string) (file : string) (w : World) :
  children (cache_step md5 path cache_dir vars file w).1 = children w.
Proof.
  destruct vars as [files in_cache_path]. unfold cache_step, bind.
  pose proof (md5FileSync_world file w) as Hmd5.
  destruct (md5FileSync md5 file w) as [w' [h|e]]; simpl in Hmd5; subst w';
    [|done].
  rewrite lookup_insert_eq. unfold existsSync. run.
  case_bool_decide; [|done].
  pose proof (copySync_children (Some (path_join path cache_dir h)) (Some file)
    {| fs := fs w;
       console := console w ++ ["From cache file " +:+ path_basename path file];
       children := children w |}) as Hcopy.
  destruct (copySync _ _ _) as [w' [[]|e]]; simpl in *; done.
Qed.

(** The cache layer starts no child. *)
Lemma reduce_work_list_children (files : list string) (opts : Options)
    (w : World) :
  children (reduce_work_list md5 path files opts w).1 = children w.
Proof.
  unfold reduce_work_list. destruct (cache_dir_of opts) as [cache_dir|]; [|done].
  unfold bind.
  assert (children (ensureDirSync cache_dir w).1 = children w) as Hdir.
  { unfold ensureDirSync. run.
    destruct (fs w !! cache_dir) as [[content|names]|]; done. }
  destruct (ensureDirSync cache_dir w) as [w' [[]|e]]; simpl in Hdir; [|done].
  rewrite forEach_acc_children; [done|]. apply cache_step_children.
Qed.

Lemma add_to_cache_children (in_cache_path : gmap string string)
    (file : string) (w : World) :
  children (add_to_cache path in_cache_path file w).1 = children w.
Proof.
  unfold add_to_cache. run. rewrite copySync_children. done.
Qed.

Lemma on_exit_children (files : list string)
    (in_cache_path : gmap string string) (code : option Z) (w : World) :
  children (handler (on_exit path files in_cache_path code) w).1 = children w.
Proof.
  unfold handler, on_exit.
  destruct code as [[| |]|]; try done. run.
  match goal with |- context [forEach files ?cb ?w0] =>
    pose proof (forEach_children files cb
                  (add_to_cache_children in_cache_path) w0) as Hloop;
    destruct (forEach files cb w0) as [w' [[]|e]]
  end; done.
Qed.

(** *** What the cache layer writes *)

Lemma cache_layer_wrote_more (files files' : list string)
    (cache_dir : option string) (f f1 : FS) (p : string) :
  files ⊆ files' ->
  cache_layer_wrote files None f f1 p ->
  cache_layer_wrote files' cache_dir f f1 p.
Proof.
  intros Hsub [Hsame|[[Hin Hfile]|[Hdir _]]]; [by left| |done].
  right; left. split; [by apply Hsub|done].
Qed.

Lemma cache_layer_wrote_then (files : list string) (cache_dir : option string)
    (f f1 f2 : FS) (p : string) :
  cache_layer_wrote files cache_dir f f1 p ->
  cache_layer_wrote files cache_dir f1 f2 p ->
  cache_layer_wrote files cache_dir f f2 p.
Proof.
  intros [Hsame|[(Hin & c & r & Hc & Hr)|(Hdir & Hnone & Hmade)]]
         [Hsame'|[(Hin' & c' & r' & Hc' & Hr')|(Hdir' & Hnone' & Hmade')]].
  - left. congruence.
  - right; left. split; [done|]. exists c', r'. split; congruence.
  - right; right. repeat split; congruence.
  - right; left. split; [done|]. exists c, r. split; congruence.
  - right; left. split; [done|]. exists c, r'. done.
  - congruence.
  - right; right. repeat split; congruence.
  - congruence.
  - congruence.
Qed.

(** A round of the cache layer writes to its candidate only, and only
    when the candidate is a regular file. *)
Lemma cache_step_wrote (cache_dir : string)
    (vars : list string * gmap string string) (file : string) (w : World)
    (p : string) :
  cache_layer_wrote [file] None (fs w)
    (fs (cache_step md5 path cache_dir vars file w).1) p.
Proof.
  destruct vars as [files in_cache_path].
  destruct (isFile (fs w) file) eqn:Hfile.
  - unfold isFile in Hfile.
    destruct (fs w !! file) as [[content|names]|] eqn:Hcontent; try done.
    unfold cache_step, bind. rewrite (md5FileSync_file _ _ _ Hcontent).
    rewrite lookup_insert_eq. unfold existsSync, copySync. run.
    case_bool_decide; [|by left]. simpl.
    destruct (fs w !! path_join path cache_dir (md5 content))
      as [[cached|names]|]; simpl; try by left.
    rewrite Hcontent. simpl.
    destruct (decide (p = file)) as [->|Hne].
    + right; left. split; [apply list_elem_of_here|].
      exists content, cached. by rewrite lookup_insert_eq.
    + left. by rewrite lookup_insert_ne.
  - destruct (md5FileSync_throws w file Hfile) as [e Hthrow].
    unfold cache_step, bind. rewrite Hthrow. by left.
Qed.

Lemma cache_loop_wrote (cache_dir : string) (files : list string) (p : string) :
  forall (vars : list string * gmap string string) (w : World),
    cache_layer_wrote files None (fs w)
      (fs (forEach_acc files (cache_step md5 path cache_dir) vars w).1) p.
Proof.
  induction files as [|file files IH]; intros vars w; [by left|].
  unfold forEach_acc; fold (@forEach_acc string (list string * gmap string string)).
  unfold bind. pose proof (cache_step_wrote cache_dir vars file w p) as Hstep.
  destruct (cache_step md5 path cache_dir vars file w) as [w' [vars'|e]];
    simpl in Hstep.
  - apply (cache_layer_wrote_then _ _ _ (fs w')).
    + apply (cache_layer_wrote_more [file]); [|done].
      intros x Hx. apply list_elem_of_singleton in Hx as ->. apply list_elem_of_here.
    + apply (cache_layer_wrote_more files); [|by apply IH].
      intros x Hx. by apply list_elem_of_further.
  - apply (cache_layer_wrote_more [file]); [|done].
    intros x Hx. apply list_elem_of_singleton in Hx as ->. apply list_elem_of_here.
Qed.

(** Whatever its outcome, the cache layer leaves every path as it was but
    the candidates, which stay regular files, and the cache directory,
    which it makes when nothing is there: no entry of the cache is made,
    and none is written to unless it is a candidate itself. *)
Lemma reduce_work_list_wrote (files : list string) (opts : Options)
    (w : World) (p : string) :
  cache_layer_wrote files (cache_dir_of opts) (fs w)
    (fs (reduce_work_list md5 path files opts w).1) p.
Proof.
  unfold reduce_work_list.
  destruct (cache_dir_of opts) as [cache_dir|]; [|by left].
  unfold bind.
  assert (cache_layer_wrote files (Some cache_dir) (fs w)
            (fs (ensureDirSync cache_dir w).1) p) as Hdir.
  { unfold ensureDirSync. run.
    destruct (fs w !! cache_dir) as [[content|names]|] eqn:Hat; simpl;
      try by left.
    destruct (decide (p = cache_dir)) as [->|Hne].
    - right; right. by rewrite lookup_insert_eq.
    - left. by rewrite lookup_insert_ne. }
  destruct (ensureDirSync cache_dir w) as [w' [[]|e]]; simpl in Hdir; [|done].
  apply (cache_layer_wrote_then _ _ _ (fs w')); [done|].
  apply (cache_layer_wrote_more files); [done|]. apply cache_loop_wrote.
Qed.

(** *** The cache layer *)

(** One round of the loop for a candidate whose checksum names an entry of
    the cache: the candidate gets the bytes of the entry and is not
    pushed. *)
Lemma cache_step_known (cache_dir file : string) (content cached : list byte)
    (kept : list string) (in_cache_path : gmap string string) (w : World) :
  fs w !! file = Some (File content) ->
  fs w !! path_join path cache_dir (md5 content) = Some (File cached) ->
  cache_step md5 path cache_dir (kept, in_cache_path) file w =
    ({| fs := <[file := File cached]> (fs w);
        console := console w ++ ["From cache file " +:+ path_basename path file];
        children := children w |},
     Normal (kept, <[file := path_join path cache_dir (md5 content)]> in_cache_path)).
Proof.
  intros Hfile Hentry. unfold cache_step, bind at 1.
  rewrite (md5FileSync_file _ _ _ Hfile), lookup_insert_eq.
  unfold existsSync, copySync. run. rewrite Hentry.
  rewrite bool_decide_eq_true_2 by eauto. rewrite Hentry, Hfile. done.
Qed.

(** One round for a candidate whose checksum names nothing: it is pushed
    and nothing else changes. *)
Lemma cache_step_unknown (cache_dir file : string) (content : list byte)
    (kept : list string) (in_cache_path : gmap string string) (w : World) :
  fs w !! file = Some (File content) ->
  fs w !! path_join path cache_dir (md5 content) = None ->
  cache_step md5 path cache_dir (kept, in_cache_path) file w =
    (w,
     Normal (kept ++ [file],
             <[file := path_join path cache_dir (md5 content)]> in_cache_path)).
Proof.
  intros Hfile Hentry. unfold cache_step, bind at 1.
  rewrite (md5FileSync_file _ _ _ Hfile), lookup_insert_eq.
  unfold existsSync. run. rewrite Hentry.
  rewrite bool_decide_eq_false_2 by (intros [? ?]; done). done.
Qed.

Lemma apart_spec (f : FS) (cache_dir : string) (files : list string) :
  apart md5 path f cache_dir files = true ->
  NoDup files /\ isFile f cache_dir = false
  /\ forall file, file ∈ files ->
       exists content,
         f !! file = Some (File content)
         /\ (path_join path cache_dir (md5 content) ∉ files)
         /\ path_join path cache_dir (md5 content) <> cache_dir
         /\ isDir f (path_join path cache_dir (md5 content)) = false.
Proof.
  unfold apart. rewrite !andb_true_iff, forallb_forall, negb_true_iff.
  intros [[Hnodup Hdir] Hall]. apply bool_decide_eq_true in Hnodup.
  split; [done|]. split; [done|].
  intros file Hin. apply list_elem_of_In, Hall in Hin.
  unfold entry_of in Hin.
  destruct (f !! file) as [[content|names]|]; try done.
  rewrite !andb_true_iff, !bool_decide_eq_true, negb_true_iff in Hin.
  exists content. destruct Hin as [[Hout Hne] Hnodir]. done.
Qed.

(** The loop of the cache layer over candidates that are apart from each
    other and from their entries does what [restore], [cache_misses] and
    [remember] say, read on the file system [f] the call started on. *)
Lemma cache_loop_spec (f : FS) (cache_dir : string) (all : list string) :
  forall (files kept : list string) (in_cache_path : gmap string string)
         (cur : FS) (log : list string) (kids : list Launch),
    NoDup files ->
    (forall file, file ∈ files ->
       file ∈ all
       /\ exists content,
         f !! file = Some (File content)
         /\ cur !! file = Some (File content)
         /\ (path_join path cache_dir (md5 content) ∉ all)
         /\ cur !! path_join path cache_dir (md5 content)
            = f !! path_join path cache_dir (md5 content)
         /\ isDir f (path_join path cache_dir (md5 content)) = false) ->
    forEach_acc files (cache_step md5 path cache_dir) (kept, in_cache_path)
      {| fs := cur; console := log; children := kids |} =
    ({| fs := foldl (restore md5 path f cache_dir) cur files;
        console :=
          log ++ map (fun file => "From cache file " +:+ path_basename path file)
                   (filter (fun file => in_cache md5 path f cache_dir file = true)
                      files);
        children := kids |},
     Normal (kept ++ cache_misses md5 path f cache_dir files,
             foldl (remember md5 path f cache_dir) in_cache_path files)).
Proof.
  induction files as [|file files IH]; intros kept icp cur log kids Hnodup Hall.
  { unfold cache_misses. simpl. rewrite !app_nil_r. done. }
  apply NoDup_cons in Hnodup as [Hfresh Hnodup].
  destruct (Hall file) as (Hin & content & Hf & Hcur & Hout & Hsame & Hnodir);
    [apply list_elem_of_here|].
  assert (entry_of md5 path f cache_dir file
          = Some (path_join path cache_dir (md5 content))) as Hentry
    by (unfold entry_of; rewrite Hf; done).
  assert (forall cur' : FS,
    (forall p, p <> file -> cur' !! p = cur !! p) ->
    forall g, g ∈ files ->
      g ∈ all
      /\ exists content,
        f !! g = Some (File content)
        /\ cur' !! g = Some (File content)
        /\ (path_join path cache_dir (md5 content) ∉ all)
        /\ cur' !! path_join path cache_dir (md5 content)
           = f !! path_join path cache_dir (md5 content)
        /\ isDir f (path_join path cache_dir (md5 content)) = false) as Hrest.
  { intros cur' Hframe g Hg.
    destruct (Hall g) as (Hgin & c & Hgf & Hgcur & Hgout & Hgsame & Hgnodir);
      [by apply list_elem_of_further|].
    split; [done|]. exists c.
    rewrite (Hframe g) by (intros ->; done).
    rewrite (Hframe (path_join path cache_dir (md5 c)))
      by (intros Heq; apply Hgout; rewrite Heq; done).
    done. }
  unfold forEach_acc; fold (@forEach_acc string (list string * gmap string string)).
  unfold bind at 1. unfold cache_misses. simpl.
  unfold restore at 2, remember at 2. rewrite Hentry.
  destruct (f !! path_join path cache_dir (md5 content)) as [[cached|names]|] eqn:Hlook.
  - assert (in_cache md5 path f cache_dir file = true) as Hknown.
    { unfold in_cache. rewrite Hentry, Hlook. apply bool_decide_eq_true_2. eauto. }
    rewrite (cache_step_known _ _ content cached); [|done|by simpl; rewrite Hsame].
    rewrite filter_cons_True by done.
    rewrite filter_cons_False by (rewrite Hknown; done).
    rewrite IH; [|done|].
    + simpl. rewrite <- app_assoc. done.
    + apply Hrest. intros p Hp. by rewrite lookup_insert_ne.
  - unfold isDir in Hnodir. rewrite Hlook in Hnodir. done.
  - assert (in_cache md5 path f cache_dir file = false) as Hunknown.
    { unfold in_cache. rewrite Hentry, Hlook. apply bool_decide_eq_false_2.
      intros [? ?]; done. }
    rewrite (cache_step_unknown _ _ content); [|done|by simpl; rewrite Hsame].
    rewrite filter_cons_False by (rewrite Hunknown; done).
    rewrite filter_cons_True by done.
    rewrite IH; [|done|].
    + rewrite <- app_assoc. done.
    + apply Hrest. done.
Qed.

Lemma ensured_lookup (f : FS) (cache_dir p : string) :
  p <> cache_dir -> ensured f cache_dir !! p = f !! p.
Proof.
  intros Hp. unfold ensured. destruct (f !! cache_dir); [done|].
  by rewrite lookup_insert_ne.
Qed.

Lemma ensureDirSync_ensures (cache_dir : string) (w : World) :
  isFile (fs w) cache_dir = false ->
  ensureDirSync cache_dir w =
    ({| fs := ensured (fs w) cache_dir; console := console w;
        children := children w |}, Normal tt).
Proof.
  unfold isFile, ensureDirSync, ensured. run. destruct w as [f log kids]. simpl.
  destruct (f !! cache_dir) as [[content|names]|]; done.
Qed.

(** The cache layer, for candidates that are apart: the work list is the
    candidates the cache does not know, every candidate it knows is
    restored from its entry, and [in_cache_path] has the entry of every
    candidate. *)
Lemma reduce_work_list_spec (files : list string) (opts : Options)
    (cache_dir : string) (w : World) :
  cache_dir_of opts = Some cache_dir ->
  apart md5 path (fs w) cache_dir files = true ->
  reduce_work_list md5 path files opts w =
    (after_cache_layer md5 path w cache_dir files,
     Normal (cache_misses md5 path (fs w) cache_dir files,
             in_cache_paths md5 path (fs w) cache_dir files)).
Proof.
  intros Hcache (Hnodup & Hdir & Hall)%apart_spec.
  unfold reduce_work_list. rewrite Hcache. unfold bind at 1.
  rewrite ensureDirSync_ensures by done.
  rewrite (cache_loop_spec (fs w) cache_dir files); [done|done|].
  intros file Hin. split; [done|].
  destruct (Hall file Hin) as (content & Hf & Hout & Hne & Hnodir).
  exists content. rewrite !ensured_lookup; [done|done|].
  intros ->. unfold isFile in Hdir. rewrite Hf in Hdir. done.
Qed.





(** *** [processFiles] after the cache layer *)

(** [processFiles] once the cache layer has returned [work] and
    [in_cache_path] and did not end the call: the child is started on
    [work], runs, and its exit is handled. *)
Lemma processFiles_spawns (files work : list string) (opts : Options)
    (in_cache_path : gmap string string) (w w1 : World)
    (f2 : FS) (out : list string) (code : option Z) :
  reduce_work_list md5 path files opts w = (w1, Normal (work, in_cache_path)) ->
  cache_dir_of opts = None \/ work <> [] ->
  optimizer (optimizer_child work opts) (fs w1) = (f2, out, code) ->
  processFiles md5 path optimizer files opts w =
    handler (on_exit path work in_cache_path code)
      {| fs := f2; console := console w1 ++ map chomp out;
         children := children w1 ++ [optimizer_child work opts] |}.
Proof.
  intros Hlayer Hchild Hrun. unfold processFiles, bind at 1. rewrite Hlayer.
  assert (match cache_dir_of opts, work with
          | Some _, [] => ret Fulfilled
          | _, _ => spawn_optimizer path optimizer work in_cache_path opts
          end = spawn_optimizer path optimizer work in_cache_path opts) as ->.
  { destruct Hchild as [-> | Hwork]; [done|].
    destruct (cache_dir_of opts), work; done. }
  unfold spawn_optimizer, child_runs. run.
  fold (optimizer_child work opts). rewrite Hrun. done.
Qed.

(** C3. If the child [processFiles] started exits with a code other than
    0, the promise is rejected with an [Error] whose message is
    'ImageOptim-CLI exited with a failure status', and the call has
    written no entry of the cache.  Before the child, in the world [w1] it
    is started in, the cache layer has left every path as the call found
    it in [w], but candidates it gave other bytes and the cache directory
    it made where nothing was: a path that is no candidate and not the
    cache directory, so every entry of the cache, holds in [w1] what it
    held in [w].  After the child the handler writes nothing: the call
    ends in the file system [f2] the child left. *)
Theorem failed_optimizer_rejects_and_caches_nothing
    (files work : list string) (opts : Options)
    (in_cache_path : gmap string string) (w w1 : World)
    (f2 : FS) (out : list string) (code : option Z) :
  reduce_work_list md5 path files opts w = (w1, Normal (work, in_cache_path)) ->
  cache_dir_of opts = None \/ work <> [] ->
  optimizer (optimizer_child work opts) (fs w1) = (f2, out, code) ->
  code <> Some 0%Z ->
  processFiles md5 path optimizer files opts w =
    ({| fs := f2; console := console w1 ++ map chomp out;
        children := children w1 ++ [optimizer_child work opts] |},
     Normal
       (Rejected (Error "ImageOptim-CLI exited with a failure status")))
  /\ (forall p : string,
        cache_layer_wrote files (cache_dir_of opts) (fs w) (fs w1) p)
  /\ (forall p : string,
        p ∉ files -> cache_dir_of opts <> Some p -> fs w1 !! p = fs w !! p).
Proof.
  intros Hlayer Hchild Hrun Hcode.
  assert (forall p : string,
            cache_layer_wrote files (cache_dir_of opts) (fs w) (fs w1) p)
    as Hwrote.
  { intros p. pose proof (reduce_work_list_wrote files opts w p) as Hp.
    by rewrite Hlayer in Hp. }
  split; [|split; [done|]].
  - rewrite (processFiles_spawns _ _ _ _ _ _ _ _ _ Hlayer Hchild Hrun).
    unfold handler, on_exit. destruct code as [[| |]|]; done.
  - intros p Hp Hdir.
    destruct (Hwrote p) as [Hsame|[[Hin _]|[Hmade _]]]; done.
Qed.

(** C4. With a cache directory, when the cache layer leaves an empty work
    list, [processFiles] resolves its promise then and there, in the world
    the cache layer left, and no child was started. *)
Theorem empty_work_list_resolves_without_child
    (files : list string) (opts : Options) (cache_dir : string)
    (in_cache_path : gmap string string) (w w1 : World) :
  cache_dir_of opts = Some cache_dir ->
  reduce_work_list md5 path files opts w = (w1, Normal ([], in_cache_path)) ->
  processFiles md5 path optimizer files opts w = (w1, Normal Fulfilled)
  /\ children w1 = children w.
Proof.
  intros Hcache Hlayer. split.
  - unfold processFiles, bind. rewrite Hlayer, Hcache. done.
  - pose proof (reduce_work_list_children files opts w) as Hchildren.
    rewrite Hlayer in Hchildren. done.
Qed.

(** Without the cache option the cache layer does nothing. *)
Lemma reduce_work_list_without_cache (files : list string) (opts : Options)
    (w : World) :
  cache_dir_of opts = None ->
  reduce_work_list md5 path files opts w = (w, Normal (files, ∅)).
Proof. intros Hcache. unfold reduce_work_list. rewrite Hcache. done. Qed.

(** C9. Without the cache option and with a file to optimize, a child
    that exits with 0 still makes the handler run the add-to-cache loop,
    over the files as they were given and with an [in_cache_path] that is
    empty, so the destination of every copy is [undefined]: the loop is
    entered, the copy of the first file throws, and the promise is never
    settled. *)
Theorem success_without_cache_copies_to_undefined
    (file : string) (rest : list string) (opts : Options) (w : World)
    (f2 : FS) (out : list string) :
  cache_dir_of opts = None ->
  optimizer (optimizer_child (file :: rest) opts) (fs w) = (f2, out, Some 0%Z) ->
  let started :=
    {| fs := f2; console := console w ++ map chomp out;
       children := children w ++ [optimizer_child (file :: rest) opts] |} in
  processFiles md5 path optimizer (file :: rest) opts w =
    handler (on_exit path (file :: rest) ∅ (Some 0%Z)) started
  /\ Forall (fun file => (∅ : gmap string string) !! file = None) (file :: rest)
  /\ handler (on_exit path (file :: rest) ∅ (Some 0%Z)) started =
     ({| fs := f2;
         console :=
           (console w ++ map chomp out)
           ++ ["ImageOptim done!"; "Add to cache " +:+ path_basename path file];
         children := children w ++ [optimizer_child (file :: rest) opts] |},
      Normal (Uncaught (TypeError "path must be a string"))).
Proof.
  intros Hcache Hrun started. split; [|split].
  - apply (processFiles_spawns _ _ _ _ _ _ _ _ _
             (reduce_work_list_without_cache _ _ _ Hcache) (or_introl Hcache) Hrun).
  - apply Forall_forall. intros g _. apply lookup_empty.
  - unfold handler, on_exit, forEach, add_to_cache, copySync. run.
    rewrite lookup_empty. rewrite <- app_assoc. done.
Qed.

(** C10. Without the cache option an empty list of files still starts a
    child, and all its standard input gets is one line feed; so does a
    batch of directories that are all empty. *)
Theorem empty_list_without_cache_starts_child (opts : Options) (w : World) :
  cache_dir_of opts = None ->
  children (processFiles md5 path optimizer [] opts w).1 =
    children w
    ++ [Spawn "./imageOptim" (getCliFlags opts) (cliPath opts) (String LF "")]
  /\ forall dirs : list string,
       Forall (fun dir => fs w !! dir = Some (Dir [])) dirs ->
       processDirectories md5 path optimizer dirs opts w =
       processFiles md5 path optimizer [] opts w.
Proof.
  intros Hcache. split.
  - destruct (optimizer (optimizer_child [] opts) (fs w)) as [[f2 out] code] eqn:Hrun.
    rewrite (processFiles_spawns _ _ _ _ _ _ _ _ _
               (reduce_work_list_without_cache _ _ _ Hcache) (or_introl Hcache) Hrun).
    rewrite on_exit_children. done.
  - intros dirs Hdirs. unfold processDirectories, bind at 1.
    assert (forall acc, forEach_acc dirs
              (fun new_files dir =>
                 (l <- getDirFiles path dir ;; ret (new_files ++ l))%js) acc w
            = (w, Normal acc)) as ->; [|done].
    induction Hdirs as [|dir dirs Hdir _ IH]; intros acc; [done|].
    unfold forEach_acc; fold (@forEach_acc string (list string)).
    unfold getDirFiles, readdirSync. run. rewrite Hdir. simpl.
    rewrite app_nil_r. apply IH.
Qed.

(** What a call of [processFiles] adds to the children: nothing when the
    cache layer left an empty work list, and else one child that gets the
    work list, a line for each file, on its standard input. *)
Lemma processFiles_children (files work : list string) (opts : Options)
    (in_cache_path : gmap string string) (w w1 : World) :
  reduce_work_list md5 path files opts w = (w1, Normal (work, in_cache_path)) ->
  children (processFiles md5 path optimizer files opts w).1 =
    children w
    ++ match cache_dir_of opts, work with
       | Some _, [] => []
       | _, _ => [optimizer_child work opts]
       end.
Proof.
  intros Hlayer.
  pose proof (reduce_work_list_children files opts w) as Hsame.
  rewrite Hlayer in Hsame. simpl in Hsame.
  destruct (cache_dir_of opts) as [cache_dir|] eqn:Hcache.
  - destruct work as [|file work].
    + unfold processFiles, bind. rewrite Hlayer, Hcache.
      simpl. rewrite app_nil_r. done.
    + destruct (optimizer (optimizer_child (file :: work) opts) (fs w1))
        as [[f2 out] code] eqn:Hrun.
      assert (file :: work <> []) as Hwork by done.
      rewrite (processFiles_spawns _ _ _ _ _ _ _ _ _ Hlayer (or_intror Hwork) Hrun).
      rewrite on_exit_children. simpl. rewrite Hsame. done.
  - destruct (optimizer (optimizer_child work opts) (fs w1))
      as [[f2 out] code] eqn:Hrun.
    rewrite (processFiles_spawns _ _ _ _ _ _ _ _ _ Hlayer (or_introl Hcache) Hrun).
    rewrite on_exit_children. simpl. rewrite Hsame. destruct work; done.
Qed.

(** *** The add-to-cache loop *)




(** *** A candidate the cache knows, a candidate it does not know *)





(** *** A batch of directories *)

(** Whatever the files and the options, a call of [processFiles] starts
    at most one child, with [spawn], the flags as its arguments and the
    directory of the binary as its working directory. *)
Lemma processFiles_only_spawns (files : list string) (opts : Options)
    (w : World) :
  exists extra,
    children (processFiles md5 path optimizer files opts w).1 = children w ++ extra
    /\ Forall
         (fun l =>
            exists stdin,
              l = Spawn "./imageOptim" (getCliFlags opts) (cliPath opts) stdin)
         extra.
Proof.
  destruct (reduce_work_list md5 path files opts w) as [w1 [[work icp]|e]] eqn:Hlayer.
  - rewrite (processFiles_children _ _ _ _ _ _ Hlayer).
    eexists. split; [done|].
    destruct (cache_dir_of opts), work; repeat constructor; eexists; done.
  - exists []. split; [|constructor].
    pose proof (reduce_work_list_children files opts w) as Hsame.
    rewrite Hlayer in Hsame. unfold processFiles, bind. rewrite Hlayer.
    rewrite app_nil_r. done.
Qed.

Lemma expand_loop (opts : Options) (w : World) (dirs : list string) :
  Forall (fun dir => isDir (fs w) dir = true) dirs ->
  forall new_files : list string,
    forEach_acc dirs
      (fun new_files dir =>
         (l <- getDirFiles path dir ;; ret (new_files ++ l))%js) new_files w
    = (w, Normal (new_files ++ expand path (fs w) dirs)).
Proof.
  induction 1 as [|dir dirs Hdir _ IH]; intros new_files.
  { unfold expand. simpl. rewrite app_nil_r. done. }
  unfold forEach_acc; fold (@forEach_acc string (list string)).
  unfold getDirFiles, readdirSync, expand. run.
  unfold isDir in Hdir. destruct (fs w !! dir) as [[content|names]|]; try done.
  simpl. rewrite IH. unfold expand. rewrite <- app_assoc. done.
Qed.

(** C5, as the code has it. A batch of directories is not given to the
    directory variant.  [processBatch] makes [processDirectories] the
    processor of the directories of a group; [processDirectories] lists
    every directory, joins each name to its directory, and hands all
    these paths, as one list of files, to [processFiles]; the only child
    that can start is the one [processFiles] starts with [spawn], the
    paths on its standard input, and no shell runs a [--directory]
    command. *)
Theorem directories_are_expanded_into_files (dirs : list string)
    (opts : Options) (w : World) :
  Forall (fun dir => isDir (fs w) dir = true) dirs ->
  (forall (cliPath : string) (options : TaskOptions) (taskFiles : list string)
          (promise : Promise) (f : FS),
     processBatch md5 path optimizer gruntFile dir_type cliPath options
       taskFiles promise f =
     match
       map (toAbsolute path gruntFile) (filter (fun p => isDir f p = true) taskFiles)
     with
     | [] => promise
     | files =>
         then_ promise (fun _ =>
           processDirectories md5 path optimizer files
             {| cliPath := cliPath;
                jpegMini := t_jpegMini options;
                imageAlpha := t_imageAlpha options;
                quitAfter := t_quitAfter options;
                cache := t_cache options |})
     end)
  /\ processDirectories md5 path optimizer dirs opts w =
     processFiles md5 path optimizer (expand path (fs w) dirs) opts w
  /\ (exists extra,
        children (processDirectories md5 path optimizer dirs opts w).1
        = children w ++ extra
        /\ Forall
             (fun l =>
                exists stdin,
                  l = Spawn "./imageOptim" (getCliFlags opts) (cliPath opts) stdin)
             extra)
  /\ Forall
       (fun dir =>
          directory_variant_used dir opts
            (children (processDirectories md5 path optimizer dirs opts w).1)
          = directory_variant_used dir opts (children w))
       dirs.
Proof.
  intros Hdirs. split.
  { intros cliPath options taskFiles promise f. unfold processBatch, isFileType.
    destruct (map _ _); done. }
  assert (processDirectories md5 path optimizer dirs opts w =
          processFiles md5 path optimizer (expand path (fs w) dirs) opts w) as Heq.
  { unfold processDirectories, bind at 1. rewrite (expand_loop opts) by done. done. }
  rewrite Heq. split; [done|]. split; [apply processFiles_only_spawns|].
  apply Forall_forall. intros dir _.
  destruct (processFiles_only_spawns (expand path (fs w) dirs) opts w)
    as (extra & -> & Hextra).
  unfold directory_variant_used. rewrite existsb_app.
  assert (existsb
            (fun l =>
               match l with
               | Exec command _ =>
                   String.eqb command (getCommandByDirectory dir opts)
               | Spawn _ _ _ _ => false
               end) extra = false) as ->; [|apply orb_false_r].
  induction Hextra as [|l extra [stdin ->] _ IH]; [done|]. simpl. exact IH.
Qed.

(** *** The batches of a task *)

(** C8. A batch whose list of files, filtered by kind and made absolute,
    is empty is skipped: [processBatch] returns the promise it was given,
    so neither a processor nor a child is added to the chain. *)
Theorem empty_batch_returns_promise (t : fileType) (cliPath : string)
    (options : TaskOptions) (taskFiles : list string) (promise : Promise)
    (f : FS) :
  map (toAbsolute path gruntFile)
      (filter (fun p => isFileType t f p = true) taskFiles) = [] ->
  processBatch md5 path optimizer gruntFile t cliPath options taskFiles promise f
  = promise.
Proof. intros Hfiles. unfold processBatch. rewrite Hfiles. done. Qed.

(** C7. When none of the candidate locations of ImageOptim-CLI exists,
    the task throws at once the error that points to the issue tracker;
    the world is as it was: no batch was dispatched and no child was
    started. *)
Theorem missing_cli_fails_before_any_batch (task_files : list FileGroup)
    (options : TaskOptions) (w : World) :
  Forall (fun cliPath => exists_ (fs w) cliPath = false) (cliPaths path dirname) ->
  imageoptim md5 path optimizer dirname gruntFile task_files options w =
    (w,
     Throw
       (Error
          ("Unable to locate ImageOptim-CLI. Please raise issue at "
           +:+ "https://github.com/JamieMason/grunt-imageoptim/issues/new"))).
Proof.
  intros Hnone. unfold imageoptim. run.
  assert (getPathToCli path dirname (fs w) = None) as ->; [|done].
  unfold getPathToCli.
  assert (filter (fun cliPath => exists_ (fs w) cliPath = true)
            (cliPaths path dirname) = []) as ->; [|done].
  induction Hnone as [|p l Hp _ IH]; [done|].
  rewrite filter_cons. rewrite IH. case_decide; [congruence|done].
Qed.

(** *** What stops a call, and what a call leaves alone *)

Lemma cache_layer_wrote_isFile (files : list string) (cache_dir : option string)
    (f f1 : FS) (p : string) :
  cache_layer_wrote files cache_dir f f1 p -> isFile f1 p = isFile f p.
Proof.
  unfold isFile.
  intros [Hsame|[(_ & c & r & -> & ->)|(_ & -> & ->)]]; [by rewrite Hsame|done..].
Qed.

Lemma cache_loop_throws (cache_dir : string) (files : list string)
    (file : string) :
  file ∈ files ->
  forall (vars : list string * gmap string string) (w : World),
    isFile (fs w) file = false ->
    exists e, (forEach_acc files (cache_step md5 path cache_dir) vars w).2 = Throw e.
Proof.
  induction files as [|g files IH]; intros Hin vars w Hfile.
  { by apply elem_of_nil in Hin. }
  unfold forEach_acc; fold (@forEach_acc string (list string * gmap string string)).
  unfold bind.
  pose proof (cache_step_wrote cache_dir vars g w file) as Hstep.
  destruct (cache_step md5 path cache_dir vars g w) as [w' [vars'|e]] eqn:Hround;
    [|by exists e].
  simpl in Hstep. apply cache_layer_wrote_isFile in Hstep.
  apply elem_of_cons in Hin as [->|Hin].
  - destruct (md5FileSync_throws w g Hfile) as [e Hthrow].
    destruct vars as [kept in_cache_path].
    unfold cache_step, bind in Hround. rewrite Hthrow in Hround. done.
  - apply IH; [done|]. by rewrite Hstep.
Qed.

(** With a cache directory, one candidate that is not a regular file
    stops the call, wherever it is in the list: [processFiles] throws, no
    child was started, and all that was written is what the cache layer
    writes, to candidates before the one it stopped at. *)
Theorem irregular_candidate_stops_the_call (files : list string)
    (opts : Options) (cache_dir file : string) (w : World) :
  cache_dir_of opts = Some cache_dir ->
  file ∈ files ->
  isFile (fs w) file = false ->
  (exists e, (processFiles md5 path optimizer files opts w).2 = Throw e)
  /\ children (processFiles md5 path optimizer files opts w).1 = children w
  /\ (forall p : string,
        cache_layer_wrote files (Some cache_dir) (fs w)
          (fs (processFiles md5 path optimizer files opts w).1) p).
Proof.
  intros Hcache Hin Hfile.
  assert (exists e, (reduce_work_list md5 path files opts w).2 = Throw e)
    as [e Hthrows].
  { unfold reduce_work_list. rewrite Hcache. unfold bind.
    assert (forall p, isFile (fs (ensureDirSync cache_dir w).1) p = isFile (fs w) p)
      as Hdir.
    { intros p. unfold ensureDirSync, isFile. run.
      destruct (fs w !! cache_dir) as [[content|names]|] eqn:Hat; simpl; try done.
      destruct (decide (p = cache_dir)) as [->|Hne].
      - by rewrite lookup_insert_eq, Hat.
      - by rewrite lookup_insert_ne. }
    destruct (ensureDirSync cache_dir w) as [w' [[]|e]]; simpl in Hdir;
      [|by exists e].
    apply cache_loop_throws with (file := file); [done|]. by rewrite Hdir. }
  pose proof (reduce_work_list_children files opts w) as Hkids.
  pose proof (reduce_work_list_wrote files opts w) as Hwrote.
  rewrite Hcache in Hwrote.
  unfold processFiles, bind.
  destruct (reduce_work_list md5 path files opts w) as [w1 [vars|e']];
    simpl in *; [done|].
  split; [by exists e'|done].
Qed.

Lemma getDirFiles_world (dir : string) (w : World) :
  (getDirFiles path dir w).1 = w.
Proof.
  unfold getDirFiles, readdirSync. run.
  destruct (fs w !! dir) as [[content|names]|]; done.
Qed.


Lemma copySync_writes_dest (src dest : option string) (w : World) (p : string) :
  dest <> Some p -> fs (copySync src dest w).1 !! p = fs w !! p.
Proof.
  intros Hdest. unfold copySync. destruct src as [src|], dest as [dest|]; try done.
  run. destruct (fs w !! src) as [[content|names]|]; try done.
  destruct (fs w !! dest) as [[content'|names']|]; simpl; try done;
    rewrite lookup_insert_ne; congruence.
Qed.

Lemma add_to_cache_loop_writes_entries (in_cache_path : gmap string string)
    (p : string) (files : list string) :
  (forall file, file ∈ files -> in_cache_path !! file <> Some p) ->
  forall w : World,
    fs (forEach files (add_to_cache path in_cache_path) w).1 !! p = fs w !! p.
Proof.
  induction files as [|file files IH]; intros Hp w; [done|].
  unfold forEach; fold (@forEach string). unfold bind.
  assert (fs (add_to_cache path in_cache_path file w).1 !! p = fs w !! p) as Hone.
  { unfold add_to_cache. run. rewrite copySync_writes_dest; [done|].
    apply Hp, list_elem_of_here. }
  destruct (add_to_cache path in_cache_path file w) as [w' [[]|e]];
    simpl in *; [|done].
  rewrite IH; [done|]. intros g Hg. by apply Hp, list_elem_of_further.
Qed.

(** Once the child has exited, [processFiles] writes to nothing but the
    entries it noted for the files of the work list, whatever the exit
    code and however the handler ends: every other path, the images
    among them, is as the child left it. *)
Theorem exit_handler_writes_entries_only
    (files work : list string) (opts : Options)
    (in_cache_path : gmap string string) (w w1 : World)
    (f2 : FS) (out : list string) (code : option Z) (p : string) :
  reduce_work_list md5 path files opts w = (w1, Normal (work, in_cache_path)) ->
  cache_dir_of opts = None \/ work <> [] ->
  optimizer (optimizer_child work opts) (fs w1) = (f2, out, code) ->
  (forall file, file ∈ work -> in_cache_path !! file <> Some p) ->
  fs (processFiles md5 path optimizer files opts w).1 !! p = f2 !! p.
Proof.
  intros Hlayer Hchild Hrun Hp.
  rewrite (processFiles_spawns _ _ _ _ _ _ _ _ _ Hlayer Hchild Hrun).
  unfold handler, on_exit.
  destruct code as [[| |]|]; try done. run.
  match goal with |- context [forEach work ?cb ?w0] =>
    pose proof (add_to_cache_loop_writes_entries in_cache_path p work Hp w0)
      as Hloop;
    destruct (forEach work cb w0) as [w' [[]|e]]
  end; done.
Qed.

(** *** The cache, there and back *)


(** *** The chain of batches *)

(** A batch that comes after a promise that does not get fulfilled does
    not run: [processBatch] hands on the failure, in the world of the
    failure, and so does the whole loop over the groups that are left. *)
Theorem failed_batch_skips_the_rest (cliPath : string) (options : TaskOptions)
    (task_files : list FileGroup) (f : FS) (promise : Promise)
    (w w' : World) (s : settled) :
  promise w = (w', s) ->
  s <> Fulfilled ->
  (forall (t : fileType) (taskFiles : list string),
     processBatch md5 path optimizer gruntFile t cliPath options taskFiles
       promise f w = (w', s))
  /\ fold_left
       (fun promise file =>
          let promise :=
            processBatch md5 path optimizer gruntFile file_type cliPath options
              (src file) promise f in
          processBatch md5 path optimizer gruntFile dir_type cliPath options
            (src file) promise f)
       task_files promise w
     = (w', s).
Proof.
  intros Hpromise Hs.
  assert (forall promise : Promise, promise w = (w', s) ->
          forall (t : fileType) (taskFiles : list string),
            processBatch md5 path optimizer gruntFile t cliPath options taskFiles
              promise f w = (w', s)) as Hbatch.
  { intros pr Hpr t taskFiles. unfold processBatch.
    destruct (map _ _); [done|]. unfold then_. rewrite Hpr.
    destruct s; done. }
  split; [by apply Hbatch|].
  revert promise Hpromise.
  induction task_files as [|group task_files IH]; intros promise Hpromise; [done|].
  simpl. apply IH. by apply Hbatch, Hbatch.
Qed.

Lemma forEach_acc_world {A S} (l : list A) (callback : S -> A -> Js S) :
  (forall s x w, (callback s x w).1 = w) ->
  forall s w, (forEach_acc l callback s w).1 = w.
Proof.
  intros Hcb. induction l as [|x l IH]; intros s w; [done|].
  unfold forEach_acc; fold (@forEach_acc A S). unfold bind. specialize (Hcb s x w).
  destruct (callback s x w) as [w' [s'|e]]; simpl in *; [|done].
  rewrite IH. done.
Qed.

Lemma spawns_at_most_then (n m : nat) (opts : Options) (w w' w'' : World) :
  spawns_at_most n opts w w' -> spawns_at_most m opts w' w'' ->
  spawns_at_most (n + m) opts w w''.
Proof.
  intros (extra & Hkids & Hall & Hlen) (extra' & Hkids' & Hall' & Hlen').
  exists (extra ++ extra'). rewrite Hkids', Hkids, <- app_assoc.
  split; [done|]. split; [by apply Forall_app|]. rewrite length_app. lia.
Qed.

Lemma spawns_at_most_more (n m : nat) (opts : Options) (w w' : World) :
  n <= m -> spawns_at_most n opts w w' -> spawns_at_most m opts w w'.
Proof.
  intros Hnm (extra & Hkids & Hall & Hlen). exists extra.
  split; [done|]. split; [done|lia].
Qed.

Lemma processFiles_spawns_at_most (files : list string) (opts : Options)
    (w : World) :
  spawns_at_most 1 opts w (processFiles md5 path optimizer files opts w).1.
Proof.
  unfold spawns_at_most.
  destruct (reduce_work_list md5 path files opts w) as [w1 [[work icp]|e]] eqn:Hlayer.
  - rewrite (processFiles_children _ _ _ _ _ _ Hlayer).
    eexists. split; [done|].
    destruct (cache_dir_of opts), work; simpl;
      (split; [repeat constructor; eexists; done | lia]).
  - exists []. split; [|split; [constructor|simpl; lia]].
    pose proof (reduce_work_list_children files opts w) as Hsame.
    rewrite Hlayer in Hsame. unfold processFiles, bind. rewrite Hlayer.
    rewrite app_nil_r. done.
Qed.

Lemma processDirectories_spawns_at_most (dirs : list string) (opts : Options)
    (w : World) :
  spawns_at_most 1 opts w (processDirectories md5 path optimizer dirs opts w).1.
Proof.
  unfold processDirectories.
  set (loop := forEach_acc dirs _ []).
  assert ((loop w).1 = w) as Hw.
  { apply forEach_acc_world. intros s x w0. unfold bind.
    pose proof (getDirFiles_world x w0) as Hlist.
    destruct (getDirFiles path x w0) as [w1 [l|e]]; simpl in *; done. }
  unfold bind. destruct (loop w) as [w1 [new_files|e]]; simpl in Hw; subst w1.
  - apply processFiles_spawns_at_most.
  - exists []. rewrite app_nil_r. split; [done|]. split; [constructor|simpl; lia].
Qed.

(** Whatever the groups of the task and whatever is on the disk, the task
    starts its children with [spawn] only, each in the directory
    [getPathToCli] found and with the flags of the options, and at most
    two for a group, one for its files and one for its directories; it
    runs nothing through a shell. *)
Theorem task_only_spawns (task_files : list FileGroup) (options : TaskOptions)
    (w : World) :
  exists extra : list Launch,
    children
      (imageoptim md5 path optimizer dirname gruntFile task_files options w).1
    = children w ++ extra
    /\ Forall
         (fun l => exists cwd stdin,
            getPathToCli path dirname (fs w) = Some cwd
            /\ l = Spawn "./imageOptim"
                     (getCliFlags
                        {| cliPath := cwd;
                           jpegMini := t_jpegMini options;
                           imageAlpha := t_imageAlpha options;
                           quitAfter := t_quitAfter options;
                           cache := t_cache options |})
                     cwd stdin)
         extra
    /\ length extra <= 2 * length task_files.
Proof.
  unfold imageoptim. run.
  destruct (getPathToCli path dirname (fs w)) as [cwd|] eqn:Hcli;
    [|exists []; rewrite app_nil_r; split; [done|]; split; [constructor|simpl; lia]].
  destruct cwd as [|c cwd'];
    [exists []; rewrite app_nil_r; split; [done|]; split; [constructor|simpl; lia]|].
  set (cwd := String c cwd') in *.
  set (opts := {| cliPath := cwd;
                  jpegMini := t_jpegMini options;
                  imageAlpha := t_imageAlpha options;
                  quitAfter := t_quitAfter options;
                  cache := t_cache options |}).
  assert (forall (n : nat) (promise : Promise) (t : fileType)
                 (taskFiles : list string),
            (forall w0, spawns_at_most n opts w0 (promise w0).1) ->
            forall w0,
              spawns_at_most (S n) opts w0
                (processBatch md5 path optimizer gruntFile t cwd options taskFiles
                   promise (fs w) w0).1) as Hbatch.
  { intros n promise t taskFiles Hpromise w0. unfold processBatch.
    destruct (map _ _) as [|file files];
      [apply (spawns_at_most_more n); [lia|apply Hpromise]|].
    unfold then_. specialize (Hpromise w0).
    destruct (promise w0) as [w1 [| |]]; simpl in Hpromise;
      try (apply (spawns_at_most_more n); [lia|done]).
    replace (S n) with (n + 1) by lia.
    apply (spawns_at_most_then _ _ _ _ w1); [done|].
    fold opts.
    destruct t.
    - pose proof (processFiles_spawns_at_most (file :: files) opts w1) as Hone.
      destruct (processFiles md5 path optimizer (file :: files) opts w1)
        as [w2 [r|e]]; done.
    - pose proof (processDirectories_spawns_at_most (file :: files) opts w1) as Hone.
      destruct (processDirectories md5 path optimizer (file :: files) opts w1)
        as [w2 [r|e]]; done. }
  assert (forall (groups : list FileGroup) (n : nat) (promise : Promise),
            (forall w0, spawns_at_most n opts w0 (promise w0).1) ->
            forall w0,
              spawns_at_most (n + 2 * length groups) opts w0
                (fold_left
                   (fun promise file =>
                      let promise :=
                        processBatch md5 path optimizer gruntFile file_type cwd
                          options (src file) promise (fs w) in
                      processBatch md5 path optimizer gruntFile dir_type cwd
                        options (src file) promise (fs w))
                   groups promise w0).1) as Hchain.
  { induction groups as [|group groups IH]; intros n promise Hpromise w0.
    - simpl. apply (spawns_at_most_more n); [lia|apply Hpromise].
    - simpl. replace (n + S (length groups + S (length groups + 0)))
        with (S (S n) + 2 * length groups) by lia.
      apply IH. intros w1. by apply Hbatch, Hbatch. }
  specialize (Hchain task_files 0 q).
  destruct (Hchain (fun w0 => ex_intro _ [] (conj (eq_sym (app_nil_r _))
                                (conj (Forall_nil_2 _) (Nat.le_refl 0)))) w)
    as (extra & Hkids & Hall & Hlen).
  exists extra.
  match goal with |- context [fold_left ?step task_files q w] =>
    destruct (fold_left step task_files q w) as [w' s']
  end.
  simpl in *. split; [done|]. split; [|lia].
  eapply Forall_impl; [exact Hall|].
  intros l [stdin ->]. by exists cwd, stdin.
Qed.

(** [getPathToCli] takes the location under the plugin's own
    [node_modules] when it exists, the one beside the plugin when only
    that one exists, and is [undefined] when neither does. *)
Theorem getPathToCli_takes_the_first (f : FS) :
  let own := path_resolve path dirname "../node_modules/imageoptim-cli/bin" in
  let beside := path_resolve path dirname "../../imageoptim-cli/bin" in
  getPathToCli path dirname f =
    (if exists_ f own then Some own
     else if exists_ f beside then Some beside else None)
  /\ match getPathToCli path dirname f with
     | Some cliPath =>
         cliPath ∈ cliPaths path dirname /\ exists_ f cliPath = true
     | None =>
         Forall (fun cliPath => exists_ f cliPath = false) (cliPaths path dirname)
     end.
Proof.
  simpl. unfold getPathToCli, cliPaths. simpl.
  rewrite !filter_cons, filter_nil.
  destruct (exists_ f (path_resolve path dirname "../node_modules/imageoptim-cli/bin"))
    eqn:Hown;
    destruct (exists_ f (path_resolve path dirname "../../imageoptim-cli/bin"))
      eqn:Hbeside;
    repeat case_decide; try done; simpl; (split; [done|]).
  - split; [apply list_elem_of_here|done].
  - split; [apply list_elem_of_here|done].
  - split; [apply list_elem_of_further, list_elem_of_here|done].
  - repeat constructor; done.
Qed.


End TaskFacts.



(** ** The task on the project *)


(** The cache layer on the project. *)
Lemma cache_layer_on_project :
  reduce_work_list MD5.hexdigest posix [a_png; b_png] with_cache project
  = (after_cache_layer MD5.hexdigest posix project ".cache" [a_png; b_png],
     Normal ([a_png],
             in_cache_paths MD5.hexdigest posix project_fs ".cache"
               [a_png; b_png])).
Proof.
  rewrite (reduce_work_list_spec MD5.hexdigest posix [a_png; b_png] with_cache
             ".cache" project).
  - assert (cache_misses MD5.hexdigest posix (fs project) ".cache" [a_png; b_png]
            = [a_png]) as -> by (vm_compute; reflexivity).
    reflexivity.
  - reflexivity.
  - vm_compute. reflexivity.
Qed.


(** With an optimizer that fails, the promise is rejected, and the entry
    of [a.png], which the cache did not have when the call started, is
    there neither when the child starts nor when the call ends. *)
Lemma failed_optimizer_on_project :
  exists w3,
    processFiles MD5.hexdigest posix failing_cli [a_png; b_png] with_cache project
    = (w3, Normal (Rejected (Error "ImageOptim-CLI exited with a failure status")))
    /\ fs project !! path_join posix ".cache" (MD5.hexdigest (bytes_of "raw:A"))
       = None
    /\ fs (after_cache_layer MD5.hexdigest posix project ".cache" [a_png; b_png])
         !! path_join posix ".cache" (MD5.hexdigest (bytes_of "raw:A"))
       = fs project !! path_join posix ".cache" (MD5.hexdigest (bytes_of "raw:A"))
    /\ fs w3 !! path_join posix ".cache" (MD5.hexdigest (bytes_of "raw:A"))
       = None.
Proof.
  destruct (failed_optimizer_rejects_and_caches_nothing MD5.hexdigest posix
              failing_cli [a_png; b_png] [a_png] with_cache
              (in_cache_paths MD5.hexdigest posix project_fs ".cache" [a_png; b_png])
              project
              (after_cache_layer MD5.hexdigest posix project ".cache" [a_png; b_png])
              (fs (after_cache_layer MD5.hexdigest posix project ".cache"
                     [a_png; b_png]))
              ["ImageOptim.app is not installed" +:+ String LF EmptyString]
              (Some 1%Z))
    as (Hrun & _ & Hframe).
  - exact cache_layer_on_project.
  - right. discriminate.
  - reflexivity.
  - discriminate.
  - eexists. split; [exact Hrun|]. split; [vm_compute; reflexivity|]. split.
    + apply Hframe.
      * apply (bool_decide_unpack _). vm_compute. reflexivity.
      * apply (bool_decide_unpack _). vm_compute. reflexivity.
    + vm_compute. reflexivity.
Defined.

(** When the cache knows every candidate, nothing is started. *)
Lemma empty_work_list_on_project :
  processFiles MD5.hexdigest posix shrinking_cli [b_png] with_cache project
  = (after_cache_layer MD5.hexdigest posix project ".cache" [b_png],
     Normal Fulfilled)
  /\ children (after_cache_layer MD5.hexdigest posix project ".cache" [b_png])
     = [].
Proof.
  apply (empty_work_list_resolves_without_child MD5.hexdigest posix shrinking_cli
           [b_png] with_cache ".cache"
           (in_cache_paths MD5.hexdigest posix project_fs ".cache" [b_png])).
  - reflexivity.
  - rewrite (reduce_work_list_spec MD5.hexdigest posix [b_png] with_cache
               ".cache" project).
    + assert (cache_misses MD5.hexdigest posix (fs project) ".cache" [b_png]
              = []) as -> by (vm_compute; reflexivity).
      reflexivity.
    + reflexivity.
    + vm_compute. reflexivity.
Defined.

(** The checksum of [a.png]. *)
Lemma md5FileSync_on_project :
  md5FileSync MD5.hexdigest a_png project
  = (project, Normal "570e4fc2a4906656ec0430919926dc42").
Proof.
  rewrite (md5FileSync_is_md5_of_content MD5.hexdigest project a_png
             (bytes_of "raw:A")).
  - assert (md5_one_pass MD5.hexdigest (bytes_of "raw:A")
            = "570e4fc2a4906656ec0430919926dc42") as -> by (vm_compute; reflexivity).
    reflexivity.
  - vm_compute. reflexivity.
Defined.

(** The checksum of a file of exactly [BUFFER_SIZE] bytes. *)
Example md5FileSync_on_one_buffer :
  (md5FileSync MD5.hexdigest "/full.png" one_buffer).2
  = Normal "79662bb030ab67cc8e36ebd8f7e6e24a".
Proof. vm_compute. reflexivity. Qed.

(** A directory of the task: its files are listed and piped to a spawned
    child; nothing is run with [--directory]. *)
Lemma directory_on_project :
  children
    (imageoptim MD5.hexdigest posix shrinking_cli "/plugin/tasks" "/project"
       [{| src := ["images"] |}] task_with_cache project).1
  = [Spawn "./imageOptim" ["--quit"] cli_bin (a_png +:+ String LF "")]
  /\ directory_variant_used "/project/images" with_cache
       (children
          (imageoptim MD5.hexdigest posix shrinking_cli "/plugin/tasks" "/project"
             [{| src := ["images"] |}] task_with_cache project).1)
     = false.
Proof. split; vm_compute; reflexivity. Qed.

Lemma directories_on_project :
  processDirectories MD5.hexdigest posix shrinking_cli ["/project/images"]
    with_cache project
  = processFiles MD5.hexdigest posix shrinking_cli [a_png; b_png] with_cache project.
Proof.
  destruct (directories_are_expanded_into_files MD5.hexdigest posix shrinking_cli
              "/project" ["/project/images"] with_cache project) as (_ & -> & _ & _).
  - constructor; [vm_compute; reflexivity | constructor].
  - assert (expand posix (fs project) ["/project/images"] = [a_png; b_png])
      as -> by (vm_compute; reflexivity).
    reflexivity.
Defined.

Lemma missing_cli_on_bare :
  imageoptim MD5.hexdigest posix shrinking_cli "/plugin/tasks" "/project"
    [{| src := ["images"] |}] task_with_cache bare
  = (bare,
     Throw
       (Error
          "Unable to locate ImageOptim-CLI. Please raise issue at https://github.com/JamieMason/grunt-imageoptim/issues/new")).
Proof.
  apply (missing_cli_fails_before_any_batch MD5.hexdigest posix shrinking_cli
           "/plugin/tasks" "/project").
  repeat constructor.
Defined.

(** [images] is no file: the batch of files of the group is skipped. *)
Lemma empty_batch_on_project :
  processBatch MD5.hexdigest posix shrinking_cli "/project" file_type cli_bin
    task_with_cache ["images"] q project_fs
  = q.
Proof.
  apply (empty_batch_returns_promise MD5.hexdigest posix shrinking_cli "/project").
  vm_compute. reflexivity.
Defined.

(** Without the cache option, the optimizer does its work on [a.png] and
    the handler then fails on the first copy. *)
Lemma success_without_cache_on_project :
  processFiles MD5.hexdigest posix shrinking_cli [a_png] without_cache project
  = ({| fs := shrink_all (a_png +:+ String LF "") project_fs;
        console := ["Finished"; "ImageOptim done!"; "Add to cache a.png"];
        children := [optimizer_child [a_png] without_cache] |},
     Normal (Uncaught (TypeError "path must be a string"))).
Proof.
  destruct (success_without_cache_copies_to_undefined MD5.hexdigest posix
              shrinking_cli a_png [] without_cache project
              (shrink_all (a_png +:+ String LF "") project_fs)
              ["Finished" +:+ String LF (String LF EmptyString)])
    as (-> & _ & ->).
  - reflexivity.
  - reflexivity.
  - reflexivity.
Defined.

(** Without the cache option, no file at all still starts a child. *)
Lemma empty_list_on_project :
  children
    (processFiles MD5.hexdigest posix shrinking_cli [] without_cache project).1
  = [Spawn "./imageOptim" ["--quit"] cli_bin (String LF "")].
Proof.
  destruct (empty_list_without_cache_starts_child MD5.hexdigest posix shrinking_cli
              without_cache project) as [-> _].
  - reflexivity.
  - reflexivity.
Defined.


(** The whole task without the cache option: the optimizer does its work,
    and the handler of its exit throws. *)
Example task_without_cache_on_project :
  (imageoptim MD5.hexdigest posix shrinking_cli "/plugin/tasks" "/project"
     [{| src := ["images"] |}] task_without_cache project).2
  = Normal (Uncaught (TypeError "path must be a string")).
Proof. vm_compute. reflexivity. Qed.

(** Why the candidates have to be regular files: a directory lists all its
    children, and with the cache option the checksum of a child that is a
    directory throws; the call ends there, before [b.png] is looked at. *)
Example directory_in_directory :
  (processDirectories MD5.hexdigest posix shrinking_cli ["/project/images"]
     with_cache nested).2
  = Throw (SystemError "EISDIR" "/project/images/old")
  /\ fs (processDirectories MD5.hexdigest posix shrinking_cli ["/project/images"]
           with_cache nested).1 !! b_png
     = Some (File (bytes_of "raw:B")).
Proof. split; vm_compute; reflexivity. Qed.


(** A candidate that is listed twice: the first round gives [b.png] the
    bytes of its entry, the second finds these bytes unknown to the cache,
    and [b.png] is on the standard input of the child. *)
Example known_file_listed_twice :
  in_cache MD5.hexdigest posix (fs project) ".cache" b_png = true
  /\ children
       (processFiles MD5.hexdigest posix shrinking_cli [b_png; b_png]
          with_cache project).1
     = [Spawn "./imageOptim" ["--quit"] cli_bin (b_png +:+ String LF "")].
Proof. split; vm_compute; reflexivity. Qed.

(** A file where the cache directory goes: [ensureDirSync] throws, and
    no candidate is looked at. *)
Example file_where_the_cache_goes :
  processFiles MD5.hexdigest posix shrinking_cli [a_png]
    {| cliPath := cli_bin; jpegMini := false; imageAlpha := false;
       quitAfter := true; cache := Some b_png |} project
  = (project, Throw (SystemError "EEXIST" b_png)).
Proof. vm_compute. reflexivity. Qed.

(** A child that exits with 0 and leaves no file behind: the handler of
    its exit throws at the first copy, the promise is never settled, and
    the cache has no entry for [a.png]. *)
Example file_removed_by_the_child :
  (processFiles MD5.hexdigest posix removing_cli [a_png; b_png] with_cache
     project).2
  = Normal (Uncaught (SystemError "ENOENT" a_png))
  /\ fs (processFiles MD5.hexdigest posix removing_cli [a_png; b_png] with_cache
           project).1
       !! path_join posix ".cache" (MD5.hexdigest (bytes_of "raw:A"))
     = None.
Proof. split; vm_compute; reflexivity. Qed.


(** * The rest of the plugin

    The functions the task is made of, each with what it keeps, what it
    refuses and how it goes together with the others. *)

(** ** Strings on their way to the console and to the shell *)

Lemma ends_with_LF_cons (c : ascii) (s : string) :
  s <> EmptyString -> ends_with_LF (String c s) = ends_with_LF s.
Proof.
  intros Hs. unfold ends_with_LF. simpl.
  destruct s as [|d s]; [done|]. simpl.
  destruct (rev (list_ascii_of_string s)) as [|e l] eqn:Hrev; simpl; [done|].
  done.
Qed.

(** What is logged of a chunk of the child's standard output is the chunk
    without the line feeds at its end, all of them and nothing else: the
    chunk is the logged line followed by line feeds only, and the logged
    line does not end with one. *)
Theorem chomp_takes_trailing_newlines (s : string) :
  ends_with_LF (chomp s) = false
  /\ exists n, s = chomp s +:+ newlines n.
Proof.
  induction s as [|c s [IHend [n IHn]]]; [split; [done | by exists 0]|].
  simpl. destruct (chomp s) as [|d r] eqn:Hchomp.
  - change (s = newlines n) in IHn. subst s.
    destruct (Ascii.eqb c LF) eqn:Hc.
    + apply Ascii.eqb_eq in Hc as ->. split; [done|]. by exists (S n).
    + split; [|by exists n]. unfold ends_with_LF. simpl. done.
  - split.
    + rewrite ends_with_LF_cons by done. done.
    + exists n. change (String c s = String c (String d r +:+ newlines n)).
      by rewrite <- IHn.
Qed.

(** The directory in the command of [getCommandByDirectory] has no bare
    whitespace: each whitespace character of the path has become a
    backslash and a space, and nothing else was touched, so the text grows
    by one character for each of them. *)
Theorem escape_spaces_leaves_no_bare_space (s : string) :
  (forall after_backslash, escaped_from after_backslash (escape_spaces s) = true)
  /\ String.length (escape_spaces s) = String.length s + count_spaces s.
Proof.
  induction s as [|c s [IHesc IHlen]]; [done|].
  simpl. destruct (is_space c) eqn:Hc.
  - split.
    + intros b. simpl. rewrite IHesc. done.
    + simpl. rewrite IHlen. lia.
  - split.
    + intros b. simpl. rewrite Hc. apply IHesc.
    + simpl. rewrite IHlen. done.
Qed.

(** Both ways to start the optimizer give it the same flags in the same
    order: the command line for a directory is the binary, the flags of
    [getCliFlags] with a space before each, and the [--directory]
    argument. *)
Theorem command_has_the_flags_of_getCliFlags (directory : string)
    (options : Options) :
  getCommandByDirectory directory options =
    "./imageOptim"
    +:+ String.concat "" (map (fun flag => " " +:+ flag) (getCliFlags options))
    +:+ " --directory " +:+ escape_spaces directory.
Proof.
  unfold getCommandByDirectory, getCliFlags.
  destruct (quitAfter options), (imageAlpha options), (jpegMini options);
    reflexivity.
Qed.

(** ** The standard input of the child *)

Lemma string_app_nil_r (s : string) : s +:+ "" = s.
Proof. induction s as [|c s IH]; [done|]. change (String c (s +:+ "") = String c s). by rewrite IH. Qed.

Lemma string_app_assoc (s t u : string) : (s +:+ t) +:+ u = s +:+ (t +:+ u).
Proof.
  induction s as [|c s IH]; [done|].
  change (String c ((s +:+ t) +:+ u) = String c (s +:+ (t +:+ u))). by rewrite IH.
Qed.

Lemma lines_from_line (line s rest : string) :
  has_LF s = false ->
  lines_from line (s +:+ String LF rest) = (line +:+ s) :: lines_from EmptyString rest.
Proof.
  revert line. induction s as [|c s IH]; intros line Hs.
  - change (lines_from line (String LF rest) = (line +:+ "") :: lines_from "" rest).
    simpl. rewrite string_app_nil_r. done.
  - unfold has_LF in Hs. simpl in Hs. apply orb_false_iff in Hs as [Hc Hs].
    change (lines_from line (String c (s +:+ String LF rest))
            = (line +:+ String c s) :: lines_from "" rest).
    simpl. rewrite Hc, IH by done.
    rewrite string_app_assoc. done.
Qed.

(** The child can read the work list back from its standard input: when
    no path has a line feed in it, the lines of what [processFiles] writes
    are the files of a work list that is not empty, in their order; an
    empty work list gives one empty line. *)
Theorem stdin_lists_the_files (files : list string) :
  forallb (fun file => negb (has_LF file)) files = true ->
  lines_from EmptyString (join (String LF "") files +:+ String LF "") =
    match files with
    | [] => [EmptyString]
    | _ => files
    end.
Proof.
  intros Hfiles. destruct files as [|file files]; [done|].
  revert file Hfiles. induction files as [|g files IH]; intros file Hfiles.
  - simpl in Hfiles. rewrite andb_true_r in Hfiles. apply negb_true_iff in Hfiles.
    unfold join. simpl. by rewrite lines_from_line.
  - simpl in Hfiles. apply andb_true_iff in Hfiles as [Hfile Hrest].
    apply negb_true_iff in Hfile.
    unfold join in *.
    change (String.concat (String LF "") (file :: g :: files))
      with (file +:+ String LF "" +:+ String.concat (String LF "") (g :: files)).
    rewrite string_app_assoc.
    change ((String LF "" +:+ String.concat (String LF "") (g :: files))
            +:+ String LF "")
      with (String LF (String.concat (String LF "") (g :: files) +:+ String LF "")).
    rewrite lines_from_line by done.
    rewrite IH by done. done.
Qed.

Lemma stdin_of_project_files :
  lines_from EmptyString (join (String LF "") [a_png; b_png] +:+ String LF "")
  = [a_png; b_png].
Proof. apply (stdin_lists_the_files [a_png; b_png]). reflexivity. Defined.

(** ** The buffer of [md5FileSync] *)

(** The checksum does not depend on what the fresh buffer holds, which
    [new Buffer] does not say, nor on its size: with two buffers of any
    content and of any two sizes the loop leaves the same hash. *)
Theorem read_loop_ignores_the_buffer (size1 size2 : nat)
    (pos1 : 0 < size1) (pos2 : 0 < size2) (fd : descriptor)
    (buffer1 buffer2 : list byte) (hash : Hash) :
  length buffer1 = size1 ->
  length buffer2 = size2 ->
  read_loop size1 pos1 fd buffer1 hash = read_loop size2 pos2 fd buffer2 hash.
Proof.
  intros _ _.
  pose proof (read_loop_absorbed size1 pos1 fd buffer1 hash) as H1.
  pose proof (read_loop_absorbed size2 pos2 fd buffer2 hash) as H2.
  destruct (read_loop size1 pos1 fd buffer1 hash) as [a1].
  destruct (read_loop size2 pos2 fd buffer2 hash) as [a2].
  simpl in *. congruence.
Qed.

Lemma read_loop_on_two_buffers :
  read_loop BUFFER_SIZE BUFFER_SIZE_pos {| unread := bytes_of "raw:A" |}
    (new_Buffer BUFFER_SIZE) createHash
  = read_loop 2 (Nat.lt_0_succ 1) {| unread := bytes_of "raw:A" |}
      (bytes_of "zz") createHash.
Proof.
  apply read_loop_ignores_the_buffer; [apply length_replicate | reflexivity].
Defined.

(** ** The two batches of a group *)


(** ** Calls that stop, and what is left alone, on the project *)

(** The directory [old] among the candidates stops the call. *)
Lemma irregular_candidate_on_nested :
  (exists e,
     (processFiles MD5.hexdigest posix shrinking_cli
        ["/project/images/old"; a_png; b_png] with_cache nested).2 = Throw e)
  /\ children
       (processFiles MD5.hexdigest posix shrinking_cli
          ["/project/images/old"; a_png; b_png] with_cache nested).1
     = children nested
  /\ (forall p : string,
        cache_layer_wrote ["/project/images/old"; a_png; b_png] (Some ".cache")
          (fs nested)
          (fs (processFiles MD5.hexdigest posix shrinking_cli
                 ["/project/images/old"; a_png; b_png] with_cache nested).1) p).
Proof.
  apply (irregular_candidate_stops_the_call MD5.hexdigest posix shrinking_cli
           ["/project/images/old"; a_png; b_png] with_cache ".cache"
           "/project/images/old" nested).
  - reflexivity.
  - apply list_elem_of_here.
  - vm_compute. reflexivity.
Defined.


(** The optimizer has shrunk [a.png]; storing it in the cache leaves it
    as the optimizer made it. *)
Lemma exit_handler_on_project :
  fs (processFiles MD5.hexdigest posix shrinking_cli [a_png; b_png] with_cache
        project).1 !! a_png
  = shrink_all (a_png +:+ String LF "")
      (fs (after_cache_layer MD5.hexdigest posix project ".cache" [a_png; b_png]))
    !! a_png.
Proof.
  apply (exit_handler_writes_entries_only MD5.hexdigest posix shrinking_cli
           [a_png; b_png] [a_png] with_cache
           (in_cache_paths MD5.hexdigest posix project_fs ".cache" [a_png; b_png])
           project
           (after_cache_layer MD5.hexdigest posix project ".cache" [a_png; b_png])
           (shrink_all (a_png +:+ String LF "")
              (fs (after_cache_layer MD5.hexdigest posix project ".cache"
                     [a_png; b_png])))
           ["Finished" +:+ String LF (String LF EmptyString)]
           (Some 0%Z) a_png).
  - exact cache_layer_on_project.
  - right. discriminate.
  - reflexivity.
  - intros file Hfile. apply list_elem_of_singleton in Hfile as ->.
    intros Hentry. vm_compute in Hentry. discriminate Hentry.
Defined.


(** After a promise that was rejected, the batches of [images] do not run. *)
Lemma failed_batch_on_project :
  (forall (t : fileType) (taskFiles : list string),
     processBatch MD5.hexdigest posix shrinking_cli "/project" t cli_bin
       task_with_cache taskFiles
       (fun w => (w, Rejected (Error errorMessage))) (fs project) project
     = (project, Rejected (Error errorMessage)))
  /\ fold_left
       (fun promise file =>
          let promise :=
            processBatch MD5.hexdigest posix shrinking_cli "/project" file_type
              cli_bin task_with_cache (src file) promise (fs project) in
          processBatch MD5.hexdigest posix shrinking_cli "/project" dir_type
            cli_bin task_with_cache (src file) promise (fs project))
       [{| src := ["images"] |}]
       (fun w => (w, Rejected (Error errorMessage))) project
     = (project, Rejected (Error errorMessage)).
Proof.
  apply (failed_batch_skips_the_rest MD5.hexdigest posix shrinking_cli "/project"
           cli_bin task_with_cache [{| src := ["images"] |}] (fs project)
           (fun w => (w, Rejected (Error errorMessage))) project project
           (Rejected (Error errorMessage))).
  - reflexivity.
  - discriminate.
Defined.
